(** * Spot optimizer backend: decision engine, command queue, switch ledger

    A shallow embedding of the core of [Server-backend-2.py]:
    [ModelManager.get_risk_score], [execute_query], [get_decision],
    [switch_report] and [mark_command_executed], with the tables they
    read and write.

    Conventions of the embedding.
    - Ratios and scores are Python floats in the source; they are exact
      rationals ([Q]) here.  Every comparison of the source is kept with
      its strictness.
    - A price of a pricing snapshot is a JSON number: a Python [int] of
      any size for an integer literal, a [float] otherwise ([number]).
      Arithmetic on an [int] and a [float] converts the [int], which
      raises [OverflowError] beyond the range of a float; the value of a
      float is an exact rational.
    - A JSON key read with [d['k']] is a field of the payload record; a key
      read with [d.get('k')] is an [option].  ['current_mode'] is read
      both ways: it is an [option], and [instance['current_mode']] raises
      [KeyError] when it is absent.  A pool's ['price'] may hold JSON
      null, hence [option number].
    - A string is its UTF-8 encoding; [len] counts its code points.
    - A [datetime] is an integer count of microseconds, the resolution of
      Python's [datetime]; a [timedelta] is a difference of two.  SQL
      [NOW()] and Python [datetime.utcnow()] are two separate clock
      readings.
    - The text of log messages is left out; a reason string is kept as a
      constructor with the values it formats.
    - A Python exception is a value of [exn]; code that can raise returns
      [result]. *)

From Stdlib Require Import ZArith QArith Qabs Qround Lia Lqa.
From stdpp Require Import gmap strings list fin_maps sorting.

Local Open Scope Q_scope.

(** ** Python values *)

Module Py.

Inductive exn : Type :=
| TypeError
| ValueError
| ZeroDivisionError
| KeyError
| OverflowError
| DatabaseError.

Inductive result (A : Type) : Type :=
| Ok (a : A)
| Raise (e : exn).
Arguments Ok {A} a.
Arguments Raise {A} e.

#[export] Instance result_ret : MRet result := @Ok.
#[export] Instance result_bind : MBind result := fun A B k r =>
  match r with
  | Ok a => k a
  | Raise e => Raise e
  end.

(** [a < b], [a > b], [a >= b] on numbers. *)
Definition ltb (a b : Q) : bool := negb (Qle_bool b a).
Definition gtb (a b : Q) : bool := ltb b a.
Definition geb (a b : Q) : bool := Qle_bool b a.

(** A number of a JSON body. *)
Inductive number : Type :=
| PyInt (n : Z)
| PyFloat (q : Q).

Definition value (x : number) : Q :=
  match x with
  | PyInt n => inject_Z n
  | PyFloat q => q
  end.

(** The largest float is [2^1024 - 2^971]; a magnitude from
    [2^1024 - 2^970] on rounds past it and has no float. *)
Definition float_overflow : Z := 2 ^ 1024 - 2 ^ 970.

(** The conversion of an operand to [float]: [OverflowError] ("int too
    large to convert to float") for an [int] out of range. *)
Definition to_float (x : number) : result Q :=
  match x with
  | PyFloat q => Ok q
  | PyInt n =>
      if (Z.abs n <? float_overflow)%Z then Ok (inject_Z n) else Raise OverflowError
  end.

(** Truth value of a number-or-None: [None] and zero are false. *)
Definition truthy (v : option number) : bool :=
  match v with
  | Some x => negb (Qeq_bool (value x) 0)
  | None => false
  end.

(** A number-or-None used as an operand of arithmetic. *)
Definition num (v : option number) : result number :=
  match v with
  | Some x => Ok x
  | None => Raise TypeError
  end.

(** [a - b]: exact on two [int]s, on floats otherwise. *)
Definition sub (a b : number) : result number :=
  match a, b with
  | PyInt m, PyInt n => Ok (PyInt (m - n))
  | _, _ => x ← to_float a; y ← to_float b; Ok (PyFloat (x - y))
  end.

(** [-a] *)
Definition neg (a : number) : number :=
  match a with
  | PyInt n => PyInt (- n)
  | PyFloat q => PyFloat (- q)
  end.

(** [a / b], always a float.  Two [int]s are divided exactly and the
    quotient converted ("integer division result too large for a
    float"); otherwise the operands are converted first. *)
Definition truediv (a b : number) : result Q :=
  match a, b with
  | PyInt m, PyInt n =>
      if (n =? 0)%Z then Raise ZeroDivisionError
      else if Qle_bool (inject_Z float_overflow) (Qabs (inject_Z m / inject_Z n))
           then Raise OverflowError
           else Ok (inject_Z m / inject_Z n)
  | _, _ =>
      x ← to_float a; y ← to_float b;
      if Qeq_bool y 0 then Raise ZeroDivisionError else Ok (x / y)
  end.

(** The nearest integer, a tie going to the even one. *)
Definition round_half_even (x : Q) : Z :=
  let below := Qfloor x in
  match Qcompare (x - inject_Z below) (1 # 2) with
  | Lt => below
  | Gt => (below + 1)%Z
  | Eq => if Z.even below then below else (below + 1)%Z
  end.

(** [round(x, ndigits)]: the nearest multiple of [10 ^ -ndigits], a tie
    going to the even one; an [int] is its own rounding. *)
Definition round (x : Q) (ndigits : nat) : Q :=
  Qred (inject_Z (round_half_even (x * inject_Z (10 ^ Z.of_nat ndigits)))
        / inject_Z (10 ^ Z.of_nat ndigits)).

(** [len(s)]: the code points of a string, one for each byte of its
    encoding that is not a continuation byte (10xxxxxx). *)
Definition is_continuation (c : Ascii.ascii) : bool :=
  let n := Ascii.nat_of_ascii c in (128 <=? n)%nat && (n <? 192)%nat.

Fixpoint len (s : string) : nat :=
  match s with
  | EmptyString => 0
  | String c rest => (if is_continuation c then 0 else 1) + len rest
  end.

End Py.
Import Py.

(** ** Reason texts

    The f-strings of the source, each with the values it formats. *)

Inductive reason : Type :=
| ModelsNotLoaded
| PoolNotInTrainingData
| ExceedsAbsolute (ratio threshold : Q)
| AboveP92 (ratio p92 : Q)
| RatioSpike (ratio p50 : Q)
| BelowSafe (ratio threshold : Q)
| NormalConditions (ratio : Q)
| AgentDisabled
| SwitchLimitReached (count limit : Z)
| TooSoonToSwitch (hours_since : Q) (minimum : Z)
| HighRiskFallback (score : Q)
| SafeToReturnPool (pool : string) (savings_pct : Q)
| BetterPool (pool : string) (savings_pct : Q).

(** ** Risk scorer *)

Module Risk.

Inductive risk_state : Type :=
| Normal        (* "normal" *)
| SafeToReturn  (* "safe-to-return" *)
| HighRisk      (* "high-risk" *)
| Event.        (* "event" *)

Record pool_context : Type := {
  ratio_p50 : Q;
  ratio_p92 : Q
}.

Record detector_config : Type := {
  ratio_spike_threshold : Q;
  ratio_absolute_high : Q;
  ratio_safe_return : Q
}.

(** [self.loaded] and the two parts of [self.capacity_detector]. *)
Record ModelManager : Type := {
  loaded : bool;
  pool_contexts : gmap string pool_context;
  config : detector_config
}.

(** [current_price / ondemand_price if ondemand_price > 0 else 1.0] *)
Definition price_ratio (current_price : option number) (ondemand_price : number) : result Q :=
  if gtb (value ondemand_price) 0 then
    p ← num current_price; truediv p ondemand_price
  else Ok 1.

(** The if/elif chain of [get_risk_score] on a computed ratio. *)
Definition classify (cfg : detector_config) (context : pool_context) (ratio : Q)
  : Q * risk_state * reason :=
  let ratio_spike := gtb ratio (ratio_p50 context * (1 + ratio_spike_threshold cfg)) in
  let ratio_absolute_high_hit := gtb ratio (ratio_absolute_high cfg) in
  let ratio_event := gtb ratio (ratio_p92 context) in
  if ratio_absolute_high_hit then
    (9 # 10, Event, ExceedsAbsolute ratio (ratio_absolute_high cfg))
  else if ratio_event then
    (8 # 10, HighRisk, AboveP92 ratio (ratio_p92 context))
  else if ratio_spike then
    (6 # 10, HighRisk, RatioSpike ratio (ratio_p50 context))
  else if ltb ratio (ratio_safe_return cfg) then
    (2 # 10, SafeToReturn, BelowSafe ratio (ratio_safe_return cfg))
  else
    (3 # 10, Normal, NormalConditions ratio).

Definition get_risk_score (self : ModelManager) (pool_id : string)
    (current_price : option number) (current_discount : Q) (ondemand_price : number)
  : result (Q * risk_state * reason) :=
  if negb (loaded self) then Ok (5 # 10, Normal, ModelsNotLoaded)
  else
    match pool_contexts self !! pool_id with
    | None => Ok (5 # 10, Normal, PoolNotInTrainingData)
    | Some context =>
        ratio ← price_ratio current_price ondemand_price;
        Ok (classify (config self) context ratio)
    end.

(** Position of a state in the order
    safe-to-return < normal < high-risk < event. *)
Definition rank (s : risk_state) : nat :=
  match s with
  | SafeToReturn => 0
  | Normal => 1
  | HighRisk => 2
  | Event => 3
  end.

Definition score_of (r : Q * risk_state * reason) : Q := r.1.1.
Definition state_of (r : Q * risk_state * reason) : risk_state := r.1.2.

End Risk.

(** ** Tables *)

Module Store.

(** [agents] joined with [agent_configs], one row per agent id. *)
Record agent_config : Type := {
  ac_client_id : Z;
  enabled : bool;
  auto_switch_enabled : bool;
  min_savings_percent : Q;
  risk_threshold : Q;
  max_switches_per_week : Z;
  min_pool_duration_hours : Z
}.

Record switch_event : Type := {
  se_client_id : Z;
  se_instance_id : string;
  se_agent_id : string;
  se_trigger : string;
  se_from_mode : string;
  se_to_mode : string;
  se_from_pool_id : option string;
  se_to_pool_id : option string;
  se_on_demand_price : Q;
  se_old_spot_price : Q;
  se_new_spot_price : Q;
  se_savings_impact : Q;
  se_snapshot_used : bool;
  se_snapshot_id : option string;
  se_old_instance_id : string;
  se_new_instance_id : string;
  se_timestamp : Z
}.

Record instance_row : Type := {
  i_client_id : Z;
  i_agent_id : string;
  i_instance_type : string;
  i_region : string;
  i_az : string;
  i_ami_id : string;
  i_current_mode : option string;
  i_current_pool_id : option string;
  i_spot_price : option Q;
  i_is_active : bool;
  i_installed_at : option Z;
  i_last_switch_at : option Z;
  i_terminated_at : option Z;
  i_baseline_ondemand_price : option Q
}.

Record client_row : Type := {
  total_savings : Q
}.

Inductive action : Type :=
| Stay              (* 'stay' *)
| FallbackOndemand  (* 'fallback_ondemand' *)
| SwitchPool.       (* 'switch_pool' *)

Record risk_score_row : Type := {
  rs_client_id : Z;
  rs_instance_id : string;
  rs_agent_id : string;
  rs_risk_score : Q;
  rs_recommended_action : action;
  rs_recommended_pool_id : string;
  rs_recommended_mode : string;
  rs_expected_savings_per_hour : Q;
  rs_allowed : bool;
  rs_reason : reason
}.

Record pending_command : Type := {
  pc_agent_id : string;
  pc_instance_id : string;
  pc_target_mode : string;
  pc_target_pool_id : option string;
  pc_created_at : Z;
  pc_executed_at : option Z
}.

Record system_event : Type := {
  sy_event_type : string;
  sy_severity : string
}.

(** The database: tables with a primary key are maps from the key, the
    append-only ones are lists in insertion order. *)
Record db : Type := {
  agent_configs : gmap string agent_config;
  instances : gmap string instance_row;
  clients : gmap Z client_row;
  switch_events : list switch_event;
  risk_scores : list risk_score_row;
  pending_switch_commands : gmap Z pending_command;
  system_events : list system_event
}.

Definition set_instances (f : gmap string instance_row -> gmap string instance_row) (d : db) : db :=
  {| agent_configs := agent_configs d; instances := f (instances d);
     clients := clients d; switch_events := switch_events d;
     risk_scores := risk_scores d;
     pending_switch_commands := pending_switch_commands d;
     system_events := system_events d |}.

Definition set_clients (f : gmap Z client_row -> gmap Z client_row) (d : db) : db :=
  {| agent_configs := agent_configs d; instances := instances d;
     clients := f (clients d); switch_events := switch_events d;
     risk_scores := risk_scores d;
     pending_switch_commands := pending_switch_commands d;
     system_events := system_events d |}.

Definition set_switch_events (f : list switch_event -> list switch_event) (d : db) : db :=
  {| agent_configs := agent_configs d; instances := instances d;
     clients := clients d; switch_events := f (switch_events d);
     risk_scores := risk_scores d;
     pending_switch_commands := pending_switch_commands d;
     system_events := system_events d |}.

Definition set_risk_scores (f : list risk_score_row -> list risk_score_row) (d : db) : db :=
  {| agent_configs := agent_configs d; instances := instances d;
     clients := clients d; switch_events := switch_events d;
     risk_scores := f (risk_scores d);
     pending_switch_commands := pending_switch_commands d;
     system_events := system_events d |}.

Definition set_pending (f : gmap Z pending_command -> gmap Z pending_command) (d : db) : db :=
  {| agent_configs := agent_configs d; instances := instances d;
     clients := clients d; switch_events := switch_events d;
     risk_scores := risk_scores d;
     pending_switch_commands := f (pending_switch_commands d);
     system_events := system_events d |}.

Definition set_system_events (f : list system_event -> list system_event) (d : db) : db :=
  {| agent_configs := agent_configs d; instances := instances d;
     clients := clients d; switch_events := switch_events d;
     risk_scores := risk_scores d;
     pending_switch_commands := pending_switch_commands d;
     system_events := f (system_events d) |}.

(** The tables of the core, without the diagnostic [system_events] log. *)
Definition core (d : db) :=
  (agent_configs d, instances d, clients d, switch_events d,
   risk_scores d, pending_switch_commands d).

(** *** Request handlers: state and exceptions *)

Definition io (A : Type) : Type := db -> result A * db.

#[export] Instance io_ret : MRet io := fun A a d => (Ok a, d).
#[export] Instance io_bind : MBind io := fun A B k m d =>
  match m d with
  | (Ok a, d') => k a d'
  | (Raise e, d') => (Raise e, d')
  end.

(** An exception raised by pure Python code inside a handler. *)
Definition lift {A : Type} (r : result A) : io A := fun d => (r, d).

(** [log_system_event]: one row in [system_events].  The insert of the
    row is taken to succeed; when it does not, the source swallows the
    exception and the row is lost. *)
Definition log_system_event (event_type severity : string) : io unit :=
  fun d => (Ok tt,
            set_system_events
              (fun l => l ++ [{| sy_event_type := event_type; sy_severity := severity |}]) d).

(** [execute_query]: one statement on its own connection, committed on
    its own.  [fails] says whether the connector raises [Error] for it;
    then the statement is rolled back, a [database_error] row is logged
    and the exception is raised again. *)
Definition execute_query {A : Type} (fails : bool) (stmt : db -> A * db) : io A :=
  fun d =>
    if fails then
      (Raise DatabaseError, (log_system_event "database_error" "error" d).2)
    else
      let '(a, d') := stmt d in (Ok a, d').

(** Which [execute_query] calls of a handler fail, by their position in
    the handler's text (0 for the first). *)
Definition faults : Type := nat -> bool.
Definition no_faults : faults := fun _ => false.
Definition fault_at (k : nat) : faults := fun i => bool_decide (i = k).

End Store.

(** ** Request handlers *)

Module Api.
Import Risk Store.

(** *** Payloads *)

Record spot_pool : Type := {
  pool_id : string;
  price : option number
}.

Record pricing_payload : Type := {
  spot_pools : list spot_pool;
  on_demand_price : number
}.

Record instance_payload : Type := {
  instance_id : string;
  current_mode : option string;
  current_pool_id : option string
}.

Record decision : Type := {
  d_instance_id : string;
  d_risk_score : Q;
  d_recommended_action : action;
  d_recommended_mode : string;
  d_recommended_pool_id : option string;
  d_expected_savings_per_hour : Q;
  d_allowed : bool;
  d_reason : reason
}.

Inductive response (A : Type) : Type :=
| Json (body : A)
| Error500 (e : exn).
Arguments Json {A} body.
Arguments Error500 {A} e.

(** *** Queries of [get_decision] *)

(** [SELECT ac.*, a.enabled, a.auto_switch_enabled ...
     WHERE ac.agent_id = %s AND a.client_id = %s] *)
Definition select_config (agent_id : string) (client_id : Z) (d : db) : option agent_config :=
  match agent_configs d !! agent_id with
  | Some c => if bool_decide (ac_client_id c = client_id) then Some c else None
  | None => None
  end.

(** [INTERVAL 7 DAY], and the microseconds of an hour. *)
Definition seven_days : Z := 7 * 86400 * 1000000.
Definition hour : Z := 3600 * 1000000.

(** [WHERE agent_id = %s AND timestamp >= DATE_SUB(NOW(), INTERVAL 7 DAY)] *)
Definition in_trailing_week (agent_id : string) (now : Z) (e : switch_event) : Prop :=
  se_agent_id e = agent_id ∧ (now - seven_days ≤ se_timestamp e)%Z.

#[export] Instance in_trailing_week_dec agent_id now e : Decision (in_trailing_week agent_id now e).
Proof. unfold in_trailing_week. apply _. Defined.

(** [SELECT COUNT( * ) FROM switch_events WHERE ...] *)
Definition count_recent_switches (agent_id : string) (now : Z) (d : db) : Z :=
  Z.of_nat (length (filter (in_trailing_week agent_id now) (switch_events d))).

(** [WHERE instance_id = %s OR new_instance_id = %s] *)
Definition names_instance (iid : string) (e : switch_event) : Prop :=
  se_instance_id e = iid ∨ se_new_instance_id e = iid.

#[export] Instance names_instance_dec iid e : Decision (names_instance iid e).
Proof. unfold names_instance. apply _. Defined.

(** The greatest of a list of timestamps: [ORDER BY timestamp DESC LIMIT 1]. *)
Fixpoint latest (ts : list Z) : option Z :=
  match ts with
  | [] => None
  | t :: rest =>
      match latest rest with
      | None => Some t
      | Some m => Some (Z.max t m)
      end
  end.

Definition select_last_switch (iid : string) (d : db) : option Z :=
  latest (se_timestamp <$> filter (names_instance iid) (switch_events d)).

(** [(datetime.utcnow() - last_switch['timestamp']).total_seconds() / 3600] *)
Definition hours_since (utcnow ts : Z) : Q := inject_Z (utcnow - ts) / inject_Z hour.

(** The rate gate: [recent_switches['count'] >= max_switches_per_week]. *)
Definition rate_gate (count : Z) (cfg : agent_config) : bool :=
  bool_decide (max_switches_per_week cfg ≤ count)%Z.

(** The dwell gate: [if last_switch: ... if hours_since < min_pool_duration_hours];
    the elapsed hours when it blocks. *)
Definition dwell_gate (utcnow : Z) (last_switch : option Z) (cfg : agent_config) : option Q :=
  match last_switch with
  | Some ts =>
      if ltb (hours_since utcnow ts) (inject_Z (min_pool_duration_hours cfg))
      then Some (hours_since utcnow ts)
      else None
  | None => None
  end.

(** The body each of the three gates returns for an instance whose
    ['current_mode'] is [mode]. *)
Definition stay_put (instance : instance_payload) (mode : string) (why : reason) : decision :=
  {| d_instance_id := instance_id instance;
     d_risk_score := 0;
     d_recommended_action := Stay;
     d_recommended_mode := mode;
     d_recommended_pool_id := current_pool_id instance;
     d_expected_savings_per_hour := 0;
     d_allowed := false;
     d_reason := why |}.

(** The answer of a gate: [instance['current_mode']] raises [KeyError]
    when the payload has no such key. *)
Definition blocked (instance : instance_payload) (why : reason) : result decision :=
  match current_mode instance with
  | Some mode => Ok (stay_put instance mode why)
  | None => Raise KeyError
  end.

(** *** Evaluation *)

(** The loop over [pricing['spot_pools']]: the price of the first pool
    whose id is the current pool's, [None] when no pool matches (the
    initial value of [current_spot_price]). *)
Fixpoint find_current_price (pools : list spot_pool) (current_pool_id : string)
  : option number :=
  match pools with
  | [] => None
  | pool :: rest =>
      if bool_decide (pool_id pool = current_pool_id) then price pool
      else find_current_price rest current_pool_id
  end.

(** [if not current_spot_price and pricing['spot_pools']: ...] *)
Definition resolve_current (pools : list spot_pool) (current_pool_id : string)
  : option number * string :=
  let current_spot_price := find_current_price pools current_pool_id in
  match pools with
  | first :: _ =>
      if negb (truthy current_spot_price) then (price first, pool_id first)
      else (current_spot_price, current_pool_id)
  | [] => (current_spot_price, current_pool_id)
  end.

(** [min(pools, key=lambda p: p['price'])]: the first pool of least
    price; [ValueError] on an empty list, [TypeError] when a null price
    is compared. *)
Fixpoint min_from (best : spot_pool) (best_price : option number) (rest : list spot_pool)
  : result spot_pool :=
  match rest with
  | [] => Ok best
  | p :: rest' =>
      q ← num (price p);
      b ← num best_price;
      if ltb (value q) (value b) then min_from p (price p) rest'
      else min_from best best_price rest'
  end.

Definition min_by_price (pools : list spot_pool) : result spot_pool :=
  match pools with
  | [] => Raise ValueError
  | p :: rest => min_from p (price p) rest
  end.

Record evaluation : Type := {
  ev_risk_score : Q;
  ev_action : action;
  ev_mode : string;
  ev_pool_id : string;
  ev_expected_savings : Q;
  ev_reason : reason
}.

Definition is_event_or_high_risk (s : risk_state) : bool :=
  match s with
  | Event | HighRisk => true
  | _ => false
  end.

Definition is_state (s t : risk_state) : bool :=
  match s, t with
  | Normal, Normal | SafeToReturn, SafeToReturn
  | HighRisk, HighRisk | Event, Event => true
  | _, _ => false
  end.

(** [get_decision] from [current_pool_id = instance.get(...)] up to the
    insert into [risk_scores]. *)
Definition evaluate (mm : ModelManager) (cfg : agent_config)
    (instance : instance_payload) (pricing : pricing_payload) : result evaluation :=
  let recorded_pool_id := default "unknown" (current_pool_id instance) in
  let mode := default "spot" (current_mode instance) in
  let '(current_spot_price, pool) := resolve_current (spot_pools pricing) recorded_pool_id in
  let ondemand_price := on_demand_price pricing in
  current_discount ←
    (if gtb (value ondemand_price) 0
     then p ← num current_spot_price; ratio ← truediv p ondemand_price; Ok (1 - ratio)
     else Ok 0);
  scored ← get_risk_score mm pool current_spot_price current_discount ondemand_price;
  let '(risk_score, state, why) := scored in
  let stay := {| ev_risk_score := risk_score; ev_action := Stay; ev_mode := mode;
                 ev_pool_id := pool; ev_expected_savings := 0; ev_reason := why |} in
  if is_event_or_high_risk state && geb risk_score (risk_threshold cfg) then
    p ← num current_spot_price;
    premium ← sub ondemand_price p;
    Ok {| ev_risk_score := risk_score; ev_action := FallbackOndemand;
          ev_mode := "ondemand"; ev_pool_id := "n/a";
          ev_expected_savings := value (neg premium);
          ev_reason := HighRiskFallback risk_score |}
  else if is_state state SafeToReturn && bool_decide (mode = "ondemand") then
    best_pool ← min_by_price (spot_pools pricing);
    best_price ← num (price best_pool);
    discount ← sub ondemand_price best_price;
    fraction ← truediv discount ondemand_price;
    let savings_pct := fraction * 100 in
    if geb savings_pct (min_savings_percent cfg) then
      Ok {| ev_risk_score := risk_score; ev_action := SwitchPool;
            ev_mode := "spot"; ev_pool_id := pool_id best_pool;
            ev_expected_savings := value discount;
            ev_reason := SafeToReturnPool (pool_id best_pool) savings_pct |}
    else Ok stay
  else if bool_decide (mode = "spot") && is_state state Normal then
    best_pool ← min_by_price (spot_pools pricing);
    if bool_decide (pool_id best_pool ≠ pool) then
      p ← num current_spot_price;
      best_price ← num (price best_pool);
      savings ← sub p best_price;
      fraction ← truediv savings ondemand_price;
      let savings_pct := fraction * 100 in
      if geb savings_pct (min_savings_percent cfg) then
        Ok {| ev_risk_score := risk_score; ev_action := SwitchPool;
              ev_mode := "spot"; ev_pool_id := pool_id best_pool;
              ev_expected_savings := value savings;
              ev_reason := BetterPool (pool_id best_pool) savings_pct |}
      else Ok stay
    else Ok stay
  else Ok stay.

(** The row inserted into [risk_scores]. *)
Definition audit_row (client_id : Z) (agent_id : string) (instance : instance_payload)
    (cfg : agent_config) (ev : evaluation) : risk_score_row :=
  {| rs_client_id := client_id;
     rs_instance_id := instance_id instance;
     rs_agent_id := agent_id;
     rs_risk_score := ev_risk_score ev;
     rs_recommended_action := ev_action ev;
     rs_recommended_pool_id := ev_pool_id ev;
     rs_recommended_mode := ev_mode ev;
     rs_expected_savings_per_hour := ev_expected_savings ev;
     rs_allowed := auto_switch_enabled cfg;
     rs_reason := ev_reason ev |}.

(** The body returned after an evaluation. *)
Definition decided (instance : instance_payload) (cfg : agent_config) (ev : evaluation)
  : decision :=
  {| d_instance_id := instance_id instance;
     d_risk_score := round (ev_risk_score ev) 4;
     d_recommended_action := ev_action ev;
     d_recommended_mode := ev_mode ev;
     d_recommended_pool_id := Some (ev_pool_id ev);
     d_expected_savings_per_hour := round (ev_expected_savings ev) 6;
     d_allowed := auto_switch_enabled cfg;
     d_reason := ev_reason ev |}.

(** The [try] block of [get_decision]. *)
Definition get_decision_try (mm : ModelManager) (f : faults) (utcnow db_now : Z)
    (client_id : Z) (agent_id : string)
    (instance : instance_payload) (pricing : pricing_payload) : io decision :=
  config_data ← execute_query (f 0%nat) (fun d => (select_config agent_id client_id d, d));
  match config_data with
  | None => lift (blocked instance AgentDisabled)
  | Some cfg =>
      if negb (enabled cfg) then lift (blocked instance AgentDisabled)
      else
        count ← execute_query (f 1%nat)
                  (fun d => (count_recent_switches agent_id db_now d, d));
        if rate_gate count cfg then
          lift (blocked instance (SwitchLimitReached count (max_switches_per_week cfg)))
        else
          last_switch ← execute_query (f 2%nat)
                          (fun d => (select_last_switch (instance_id instance) d, d));
          match dwell_gate utcnow last_switch cfg with
          | Some hours =>
              lift (blocked instance
                      (TooSoonToSwitch hours (min_pool_duration_hours cfg)))
          | None =>
              ev ← lift (evaluate mm cfg instance pricing);
              _ ← execute_query (f 3%nat)
                    (fun d => (tt, set_risk_scores
                                     (fun l => l ++ [audit_row client_id agent_id instance cfg ev]) d));
              mret (decided instance cfg ev)
          end
  end.

(** A handler's [try ... except Exception] with its log row. *)
Definition handle {A : Type} (failed_event : string) (body : io A) (d : db)
  : response A * db :=
  match body d with
  | (Ok a, d') => (Json a, d')
  | (Raise e, d') => (Error500 e, (log_system_event failed_event "error" d').2)
  end.

Definition get_decision (mm : ModelManager) (f : faults) (utcnow db_now : Z)
    (client_id : Z) (agent_id : string)
    (instance : instance_payload) (pricing : pricing_payload) (d : db)
  : response decision * db :=
  handle "decision_error"
    (get_decision_try mm f utcnow db_now client_id agent_id instance pricing) d.

(** The answer of a call that a gate stops: the gate's body, or the
    handler's answer to the [KeyError]. *)
Definition gate_answer (instance : instance_payload) (why : reason) (d : db)
  : response decision * db :=
  handle "decision_error" (lift (blocked instance why)) d.

(** *** [switch_report] *)

Record old_instance : Type := {
  o_instance_id : string;
  o_mode : string;
  o_pool_id : option string
}.

Record new_instance : Type := {
  n_instance_id : string;
  n_mode : string;
  n_pool_id : option string;
  n_instance_type : string;
  n_region : string;
  n_az : string;
  n_ami_id : string
}.

Record snapshot_info : Type := {
  used : bool;
  snapshot_id : option string
}.

Record prices_payload : Type := {
  on_demand : Q;
  old_spot : Q;
  new_spot : option Q
}.

Record timing_payload : Type := {
  traffic_switched_at : Z;
  new_instance_ready_at : Z;
  old_instance_terminated_at : option Z
}.

Record switch_payload : Type := {
  old_inst : old_instance;
  new_inst : new_instance;
  snapshot : snapshot_info;
  prices : prices_payload;
  timing : timing_payload;
  trigger : string
}.

(** [prices['old_spot'] - prices.get('new_spot', prices['on_demand'])] *)
Definition savings_impact (data : switch_payload) : Q :=
  old_spot (prices data) - default (on_demand (prices data)) (new_spot (prices data)).

(** The row of [INSERT INTO switch_events]. *)
Definition event_row (client_id : Z) (agent_id : string) (data : switch_payload)
  : switch_event :=
  {| se_client_id := client_id;
     se_instance_id := n_instance_id (new_inst data);
     se_agent_id := agent_id;
     se_trigger := trigger data;
     se_from_mode := o_mode (old_inst data);
     se_to_mode := n_mode (new_inst data);
     se_from_pool_id := o_pool_id (old_inst data);
     se_to_pool_id := n_pool_id (new_inst data);
     se_on_demand_price := on_demand (prices data);
     se_old_spot_price := old_spot (prices data);
     se_new_spot_price := default 0 (new_spot (prices data));
     se_savings_impact := savings_impact data;
     se_snapshot_used := used (snapshot data);
     se_snapshot_id := snapshot_id (snapshot data);
     se_old_instance_id := o_instance_id (old_inst data);
     se_new_instance_id := n_instance_id (new_inst data);
     se_timestamp := traffic_switched_at (timing data) |}.

Definition insert_event (client_id : Z) (agent_id : string) (data : switch_payload)
    (d : db) : db :=
  set_switch_events (fun l => l ++ [event_row client_id agent_id data]) d.

(** [UPDATE instances SET is_active = FALSE, terminated_at = %s
     WHERE id = %s AND client_id = %s] *)
Definition terminate (terminated_at : option Z) (r : instance_row) : instance_row :=
  {| i_client_id := i_client_id r; i_agent_id := i_agent_id r;
     i_instance_type := i_instance_type r; i_region := i_region r;
     i_az := i_az r; i_ami_id := i_ami_id r;
     i_current_mode := i_current_mode r;
     i_current_pool_id := i_current_pool_id r;
     i_spot_price := i_spot_price r;
     i_is_active := false;
     i_installed_at := i_installed_at r;
     i_last_switch_at := i_last_switch_at r;
     i_terminated_at := terminated_at;
     i_baseline_ondemand_price := i_baseline_ondemand_price r |}.

Definition deactivate_old_rows (client_id : Z) (data : switch_payload)
    (m : gmap string instance_row) : gmap string instance_row :=
  match m !! o_instance_id (old_inst data) with
  | Some r =>
      if bool_decide (i_client_id r = client_id)
      then <[o_instance_id (old_inst data) :=
               terminate (old_instance_terminated_at (timing data)) r]> m
      else m
  | None => m
  end.

Definition deactivate_old (client_id : Z) (data : switch_payload) (d : db) : db :=
  set_instances (deactivate_old_rows client_id data) d.

(** [INSERT INTO instances (...) VALUES (...)]: the row of a new id. *)
Definition fresh_row (client_id : Z) (agent_id : string) (data : switch_payload)
  : instance_row :=
  {| i_client_id := client_id; i_agent_id := agent_id;
     i_instance_type := n_instance_type (new_inst data);
     i_region := n_region (new_inst data);
     i_az := n_az (new_inst data);
     i_ami_id := n_ami_id (new_inst data);
     i_current_mode := Some (n_mode (new_inst data));
     i_current_pool_id := n_pool_id (new_inst data);
     i_spot_price := Some (default 0 (new_spot (prices data)));
     i_is_active := true;
     i_installed_at := Some (new_instance_ready_at (timing data));
     i_last_switch_at := Some (traffic_switched_at (timing data));
     i_terminated_at := None;
     i_baseline_ondemand_price := None |}.

(** [ON DUPLICATE KEY UPDATE current_mode = ..., current_pool_id = ...,
     spot_price = ..., is_active = TRUE, last_switch_at = ...] *)
Definition refresh_row (data : switch_payload) (r : instance_row) : instance_row :=
  {| i_client_id := i_client_id r; i_agent_id := i_agent_id r;
     i_instance_type := i_instance_type r; i_region := i_region r;
     i_az := i_az r; i_ami_id := i_ami_id r;
     i_current_mode := Some (n_mode (new_inst data));
     i_current_pool_id := n_pool_id (new_inst data);
     i_spot_price := Some (default 0 (new_spot (prices data)));
     i_is_active := true;
     i_installed_at := i_installed_at r;
     i_last_switch_at := Some (traffic_switched_at (timing data));
     i_terminated_at := i_terminated_at r;
     i_baseline_ondemand_price := i_baseline_ondemand_price r |}.

Definition upsert_new_rows (client_id : Z) (agent_id : string) (data : switch_payload)
    (m : gmap string instance_row) : gmap string instance_row :=
  match m !! n_instance_id (new_inst data) with
  | Some r => <[n_instance_id (new_inst data) := refresh_row data r]> m
  | None => <[n_instance_id (new_inst data) := fresh_row client_id agent_id data]> m
  end.

Definition upsert_new (client_id : Z) (agent_id : string) (data : switch_payload)
    (d : db) : db :=
  set_instances (upsert_new_rows client_id agent_id data) d.

(** [UPDATE clients SET total_savings = total_savings + %s WHERE id = %s] *)
Definition add_savings_rows (client_id : Z) (hourly_savings : Q)
    (m : gmap Z client_row) : gmap Z client_row :=
  alter (fun c => {| total_savings := total_savings c + hourly_savings |}) client_id m.

Definition add_savings (client_id : Z) (hourly_savings : Q) (d : db) : db :=
  set_clients (add_savings_rows client_id hourly_savings) d.

(** The [try] block of [switch_report]. *)
Definition switch_report_try (f : faults) (client_id : Z) (agent_id : string)
    (data : switch_payload) : io unit :=
  let impact := savings_impact data in
  _ ← execute_query (f 0%nat) (fun d => (tt, insert_event client_id agent_id data d));
  _ ← execute_query (f 1%nat) (fun d => (tt, deactivate_old client_id data d));
  _ ← execute_query (f 2%nat) (fun d => (tt, upsert_new client_id agent_id data d));
  _ ← (if gtb impact 0
       then execute_query (f 3%nat) (fun d => (tt, add_savings client_id (impact * 24) d))
       else mret tt);
  log_system_event "switch_completed" "info".

Definition switch_report (f : faults) (client_id : Z) (agent_id : string)
    (data : switch_payload) (d : db) : response unit * db :=
  handle "switch_report_failed" (switch_report_try f client_id agent_id data) d.

(** *** [mark_command_executed] *)

Definition acknowledge (now : Z) (c : pending_command) : pending_command :=
  {| pc_agent_id := pc_agent_id c; pc_instance_id := pc_instance_id c;
     pc_target_mode := pc_target_mode c; pc_target_pool_id := pc_target_pool_id c;
     pc_created_at := pc_created_at c;
     pc_executed_at := Some now |}.

(** [UPDATE pending_switch_commands SET executed_at = NOW()
     WHERE id = %s AND agent_id = %s] *)
Definition set_executed_rows (now : Z) (command_id : Z) (agent_id : string)
    (m : gmap Z pending_command) : gmap Z pending_command :=
  match m !! command_id with
  | Some c =>
      if bool_decide (pc_agent_id c = agent_id)
      then <[command_id := acknowledge now c]> m
      else m
  | None => m
  end.

Definition set_executed (now : Z) (command_id : Z) (agent_id : string) (d : db) : db :=
  set_pending (set_executed_rows now command_id agent_id) d.

Definition mark_command_executed (f : faults) (db_now : Z) (agent_id : string)
    (command_id : Z) (d : db) : response unit * db :=
  match execute_query (f 0%nat) (fun d => (tt, set_executed db_now command_id agent_id d)) d with
  | (Ok _, d') => (Json tt, d')
  | (Raise e, d') => (Error500 e, d')
  end.

End Api.

(** ** Operator endpoints

    [force_instance_switch], [get_pending_commands], [toggle_agent],
    [update_agent_settings] and [get_switch_history].  Their answers
    carry a status: 200 with a body, 400, 404 or 500. *)

Module Console.
Import Store Api.

Inductive http (A : Type) : Type :=
| Http200 (body : A)
| Http400
| Http404
| Http500.
Arguments Http200 {A} body.
Arguments Http400 {A}.
Arguments Http404 {A}.
Arguments Http500 {A}.

(** *** [ForceSwitchSchema] *)

(** What the request body holds under a key of the schema. *)
Inductive json_value : Type :=
| Missing             (* the body has no such key *)
| Null                (* JSON null *)
| NotText             (* a number, a boolean, a list or an object *)
| Text (s : string).  (* a string *)

(** The request body: a JSON object, with what it holds under
    ['target'] and ['pool_id'] and whether it has a key besides these
    two; or a JSON value that is not an object. *)
Inductive force_switch_payload : Type :=
| NotAnObject
| Object (fs_target fs_pool_id : json_value) (fs_other_keys : bool).

Record force_switch_data : Type := {
  v_target : string;
  v_pool_id : option string
}.

(** [fields.Str(required=False, validate=validate.Length(max=128))] on
    the value under ['pool_id']: the validated value, or [None] for an
    error. *)
Definition load_pool_id (v : json_value) : option (option string) :=
  match v with
  | Missing => Some None
  | Text p => if bool_decide (len p <= 128)%nat then Some (Some p) else None
  | Null | NotText => None
  end.

(** [fields.Str(required=True, validate=validate.OneOf(['ondemand', 'pool']))]
    on the value under ['target']. *)
Definition load_target (v : json_value) : option string :=
  match v with
  | Text t => if bool_decide (t = "ondemand" \/ t = "pool") then Some t else None
  | Missing | Null | NotText => None
  end.

(** [schema.load(data)]: the body is an object without unknown keys
    whose fields load.  [None] stands for [ValidationError]. *)
Definition force_switch_schema_load (data : force_switch_payload) : option force_switch_data :=
  match data with
  | NotAnObject => None
  | Object target pool other_keys =>
      match load_target target, load_pool_id pool with
      | Some t, Some p =>
          if other_keys then None else Some {| v_target := t; v_pool_id := p |}
      | _, _ => None
      end
  end.

(** *** [force_instance_switch] *)

(** The row of [INSERT INTO pending_switch_commands]; [executed_at] is
    left NULL. *)
Definition command_row (agent_id instance_id : string) (validated : force_switch_data)
    (now : Z) : pending_command :=
  {| pc_agent_id := agent_id;
     pc_instance_id := instance_id;
     pc_target_mode := v_target validated;
     pc_target_pool_id :=
       if bool_decide (v_target validated = "pool") then v_pool_id validated else None;
     pc_created_at := now;
     pc_executed_at := None |}.

(** The second [try] block of [force_instance_switch].  [command_id] is
    the id AUTO_INCREMENT gives the new row, an id no row of the table
    has. *)
Definition force_instance_switch_try (f : faults) (db_now command_id : Z)
    (instance_id : string) (validated : force_switch_data) : io (http unit) :=
  instance ← execute_query (f 0%nat) (fun d => (instances d !! instance_id, d));
  match instance with
  | None => mret Http404
  | Some r =>
      if bool_decide (i_agent_id r = "") then mret Http404
      else
        _ ← execute_query (f 1%nat)
              (fun d => (tt, set_pending
                               (insert command_id
                                  (command_row (i_agent_id r) instance_id validated db_now)) d));
        _ ← log_system_event "manual_switch_requested" "info";
        mret (Http200 tt)
  end.

Definition force_instance_switch (f : faults) (db_now command_id : Z)
    (instance_id : string) (data : force_switch_payload) (d : db) : http unit * db :=
  match force_switch_schema_load data with
  | None => (Http400, d)
  | Some validated =>
      match force_instance_switch_try f db_now command_id instance_id validated d with
      | (Ok answer, d') => (answer, d')
      | (Raise _, d') => (Http500, (log_system_event "manual_switch_failed" "error" d').2)
      end
  end.

(** *** [get_pending_commands] *)

Record pending_view : Type := {
  pv_id : Z;
  pv_instance_id : string;
  pv_target_mode : string;
  pv_target_pool_id : option string;
  pv_created_at : Z
}.

(** [WHERE agent_id = %s AND executed_at IS NULL] *)
Definition is_pending_for (agent_id : string) (row : Z * pending_command) : Prop :=
  pc_agent_id row.2 = agent_id /\ pc_executed_at row.2 = None.

#[export] Instance is_pending_for_dec agent_id row : Decision (is_pending_for agent_id row).
Proof. unfold is_pending_for. apply _. Defined.

(** [ORDER BY created_at ASC] *)
Definition created_before (a b : Z * pending_command) : Prop :=
  (pc_created_at a.2 <= pc_created_at b.2)%Z.

#[export] Instance created_before_dec a b : Decision (created_before a b).
Proof. unfold created_before. apply _. Defined.

(** The rows of the query.  SQL leaves the order of rows of equal
    [created_at] open; the sort keeps them in the order of the table. *)
Definition select_pending (agent_id : string) (d : db) : list (Z * pending_command) :=
  merge_sort created_before
    (filter (is_pending_for agent_id) (map_to_list (pending_switch_commands d))).

Definition view_of (row : Z * pending_command) : pending_view :=
  {| pv_id := row.1;
     pv_instance_id := pc_instance_id row.2;
     pv_target_mode := pc_target_mode row.2;
     pv_target_pool_id := pc_target_pool_id row.2;
     pv_created_at := pc_created_at row.2 |}.

Definition get_pending_commands (f : faults) (agent_id : string) (d : db)
  : http (list pending_view) * db :=
  match execute_query (f 0%nat) (fun d => (select_pending agent_id d, d)) d with
  | (Ok commands, d') => (Http200 (view_of <$> commands), d')
  | (Raise _, d') => (Http500, d')
  end.

(** *** [toggle_agent] and [update_agent_settings] *)

Definition set_agent_configs (f : gmap string agent_config -> gmap string agent_config)
    (d : db) : db :=
  {| agent_configs := f (agent_configs d); instances := instances d;
     clients := clients d; switch_events := switch_events d;
     risk_scores := risk_scores d;
     pending_switch_commands := pending_switch_commands d;
     system_events := system_events d |}.

Definition with_enabled (b : bool) (c : agent_config) : agent_config :=
  {| ac_client_id := ac_client_id c; enabled := b;
     auto_switch_enabled := auto_switch_enabled c;
     min_savings_percent := min_savings_percent c;
     risk_threshold := risk_threshold c;
     max_switches_per_week := max_switches_per_week c;
     min_pool_duration_hours := min_pool_duration_hours c |}.

Definition with_auto_switch (b : bool) (c : agent_config) : agent_config :=
  {| ac_client_id := ac_client_id c; enabled := enabled c;
     auto_switch_enabled := b;
     min_savings_percent := min_savings_percent c;
     risk_threshold := risk_threshold c;
     max_switches_per_week := max_switches_per_week c;
     min_pool_duration_hours := min_pool_duration_hours c |}.

(** [UPDATE agents SET enabled = %s WHERE id = %s].  [data['enabled']]
    raises [KeyError] when the key is absent, before any statement. *)
Definition toggle_agent (f : faults) (agent_id : string) (data_enabled : option bool)
    (d : db) : http unit * db :=
  match data_enabled with
  | None => (Http500, d)
  | Some b =>
      match execute_query (f 0%nat)
              (fun d => (tt, set_agent_configs (alter (with_enabled b) agent_id) d)) d with
      | (Ok _, d') => (Http200 tt, (log_system_event "agent_toggled" "info" d').2)
      | (Raise _, d') => (Http500, d')
      end
  end.

(** [UPDATE agents SET auto_switch_enabled = %s, auto_terminate_enabled = %s
     WHERE id = %s], with the assignments of the keys present in the body.
    The column [auto_terminate_enabled] is not among the columns of
    [agent_config]: on them its assignment changes nothing. *)
Definition update_agent_settings (f : faults) (agent_id : string)
    (data_auto_switch data_auto_terminate : option bool) (d : db) : http unit * db :=
  match data_auto_switch, data_auto_terminate with
  | None, None => (Http200 tt, d)
  | _, _ =>
      match execute_query (f 0%nat)
              (fun d => (tt, set_agent_configs
                               (alter (fun c => match data_auto_switch with
                                                | Some b => with_auto_switch b c
                                                | None => c
                                                end) agent_id) d)) d with
      | (Ok _, d') => (Http200 tt, (log_system_event "agent_settings_updated" "info" d').2)
      | (Raise _, d') => (Http500, d')
      end
  end.

(** *** [get_switch_history] *)

Record history_view : Type := {
  hv_id : nat;
  hv_instance_id : string;
  hv_timestamp : Z;
  hv_from_mode : string;
  hv_to_mode : string;
  hv_from_pool : string;
  hv_to_pool : string;
  hv_trigger : string;
  hv_price : Q;
  hv_savings_impact : Q
}.

(** [x or 'n/a'] on a nullable string. *)
Definition or_na (v : option string) : string :=
  match v with
  | Some s => if bool_decide (s = "") then "n/a" else s
  | None => "n/a"
  end.

(** [x or y] on numbers. *)
Definition or_else (x y : Q) : Q := if Qeq_bool x 0 then y else x.

(** The ledger with the [id] column: the rows are numbered from 1 in
    the order of insertion. *)
Definition numbered (l : list switch_event) : list (nat * switch_event) :=
  imap (fun i e => (S i, e)) l.

(** [WHERE client_id = %s], and [AND (old_instance_id = %s OR
    new_instance_id = %s)] when an instance id is given; an empty
    instance id is no filter. *)
Definition in_history (client_id : Z) (instance_id : option string)
    (row : nat * switch_event) : Prop :=
  se_client_id row.2 = client_id /\
  match instance_id with
  | Some iid =>
      iid = "" \/ se_old_instance_id row.2 = iid \/ se_new_instance_id row.2 = iid
  | None => True
  end.

#[export] Instance in_history_dec client_id instance_id row :
  Decision (in_history client_id instance_id row).
Proof. unfold in_history. destruct instance_id; apply _. Defined.

(** [ORDER BY timestamp DESC] *)
Definition later (a b : nat * switch_event) : Prop :=
  (se_timestamp b.2 <= se_timestamp a.2)%Z.

#[export] Instance later_dec a b : Decision (later a b).
Proof. unfold later. apply _. Defined.

(** [... ORDER BY timestamp DESC LIMIT 100] *)
Definition select_history (client_id : Z) (instance_id : option string) (d : db)
  : list (nat * switch_event) :=
  take 100 (merge_sort later
              (filter (in_history client_id instance_id) (numbered (switch_events d)))).

Definition history_of (row : nat * switch_event) : history_view :=
  {| hv_id := row.1;
     hv_instance_id := se_new_instance_id row.2;
     hv_timestamp := se_timestamp row.2;
     hv_from_mode := se_from_mode row.2;
     hv_to_mode := se_to_mode row.2;
     hv_from_pool := or_na (se_from_pool_id row.2);
     hv_to_pool := or_na (se_to_pool_id row.2);
     hv_trigger := se_trigger row.2;
     hv_price := or_else (se_new_spot_price row.2) (or_else (se_on_demand_price row.2) 0);
     hv_savings_impact := or_else (se_savings_impact row.2) 0 |}.

Definition get_switch_history (f : faults) (client_id : Z) (instance_id : option string)
    (d : db) : http (list history_view) * db :=
  match execute_query (f 0%nat) (fun d => (select_history client_id instance_id d, d)) d with
  | (Ok history, d') => (Http200 (history_of <$> history), d')
  | (Raise _, d') => (Http500, d')
  end.

End Console.

(** ** Notions of the specification

    Predicates that follow the wording of the specification; the
    properties below compare the handlers with them. *)

Module Spec.
Import Risk Store Api.

(** The snapshot does not list the pool. *)
Definition not_listed (pools : list spot_pool) (pool : string) : Prop :=
  forall p, p ∈ pools -> pool_id p <> pool.

(** The snapshot lists the pool, and the entry the lookup loop stops at
    (the first one with this id) carries the price [v]. *)
Definition listed_with (pools : list spot_pool) (pool : string) (v : option number) : Prop :=
  exists before p after,
    pools = before ++ p :: after /\
    not_listed before pool /\
    pool_id p = pool /\
    price p = v.

(** A switch event touches the instance as source or as destination
    (the condition [get_switch_history] selects on:
    [old_instance_id = %s OR new_instance_id = %s]). *)
Definition touches (iid : string) (e : switch_event) : Prop :=
  se_old_instance_id e = iid \/ se_new_instance_id e = iid.

(** [e] is a most recent event of the ledger among those satisfying [P]. *)
Definition most_recent (P : switch_event -> Prop) (d : db) (e : switch_event) : Prop :=
  e ∈ switch_events d /\ P e /\
  forall e', e' ∈ switch_events d -> P e' -> (se_timestamp e' <= se_timestamp e)%Z.

(** The three gates let the call through to the evaluation. *)
Definition reaches_evaluating (utcnow db_now : Z) (client_id : Z) (agent_id : string)
    (instance : instance_payload) (d : db) (cfg : agent_config) : Prop :=
  select_config agent_id client_id d = Some cfg /\
  enabled cfg = true /\
  rate_gate (count_recent_switches agent_id db_now d) cfg = false /\
  dwell_gate utcnow (select_last_switch (instance_id instance) d) cfg = None.

(** The reasons the three gates answer with. *)
Definition gate_reason (r : reason) : bool :=
  match r with
  | AgentDisabled | SwitchLimitReached _ _ | TooSoonToSwitch _ _ => true
  | _ => false
  end.

(** The count of the agent's switch events in the trailing seven days:
    the events of the ledger that are the agent's and, at [now], at most
    seven days old. *)
Fixpoint weekly_switches (agent : string) (now : Z) (ledger : list switch_event) : Z :=
  match ledger with
  | [] => 0
  | e :: rest =>
      if decide (se_agent_id e = agent /\ (now - se_timestamp e <= seven_days)%Z)
      then (1 + weekly_switches agent now rest)%Z
      else weekly_switches agent now rest
  end.

(** The reason the rate gate answers with. *)
Definition rate_limited (r : reason) : bool :=
  match r with
  | SwitchLimitReached _ _ => true
  | _ => false
  end.

End Spec.
Import Spec.

(** ** Concrete inputs used by the examples below *)

Module Fixtures.
Import Risk Store Api.

(** The model state of the scenario: models loaded, one pool with
    ratio_p50 = 0.5 and ratio_p92 = 0.9, absolute-high threshold 0.95. *)
Definition scenario_manager (spike safe : Q) : ModelManager :=
  {| loaded := true;
     pool_contexts := {[ "pool-a" := {| ratio_p50 := 5 # 10; ratio_p92 := 9 # 10 |} ]};
     config := {| ratio_spike_threshold := spike;
                  ratio_absolute_high := 95 # 100;
                  ratio_safe_return := safe |} |}.

(** A snapshot whose first pool is not its cheapest. *)
Definition pool_a : spot_pool := {| pool_id := "pool-a"; price := Some (PyFloat (5 # 10)) |}.
Definition pool_b : spot_pool := {| pool_id := "pool-b"; price := Some (PyFloat (3 # 10)) |}.
Definition two_pools : list spot_pool := [pool_a; pool_b].

(** A snapshot that lists the current pool with price 0. *)
Definition pool_b_free : spot_pool := {| pool_id := "pool-b"; price := Some (PyInt 0) |}.
Definition stale_pools : list spot_pool := [pool_a; pool_b_free].

(** A time given in seconds. *)
Definition sec (n : Z) : Z := n * 1000000.

(** One client with one enabled agent: at most 2 switches a week, at
    least 24 hours on a pool. *)
Definition policy : agent_config :=
  {| ac_client_id := 1; enabled := true; auto_switch_enabled := true;
     min_savings_percent := 20; risk_threshold := 7 # 10;
     max_switches_per_week := 2; min_pool_duration_hours := 24 |}.

Definition base_db : db :=
  {| agent_configs := {[ "agent-1" := policy ]};
     instances := ∅;
     clients := {[ 1%Z := {| total_savings := 0 |} ]};
     switch_events := [];
     risk_scores := [];
     pending_switch_commands := ∅;
     system_events := [] |}.

Definition models : ModelManager := scenario_manager (3 # 10) (5 # 10).

Definition on_spot (iid : string) : instance_payload :=
  {| instance_id := iid; current_mode := Some "spot"; current_pool_id := Some "pool-a" |}.

(** An instance payload without the key ['current_mode']. *)
Definition modeless (iid : string) : instance_payload :=
  {| instance_id := iid; current_mode := None; current_pool_id := Some "pool-a" |}.

Definition snapshot_ab : pricing_payload :=
  {| spot_pools := two_pools; on_demand_price := PyFloat 1 |}.

Definition snapshot_empty : pricing_payload :=
  {| spot_pools := []; on_demand_price := PyFloat 1 |}.

(** The report of a switch from instance [old] to instance [new], both
    on spot, from a pool at 0.5 to a pool at 0.3, at time [at_]. *)
Definition move (old new : string) (at_ : Z) : switch_payload :=
  {| old_inst := {| o_instance_id := old; o_mode := "spot"; o_pool_id := Some "pool-a" |};
     new_inst := {| n_instance_id := new; n_mode := "spot"; n_pool_id := Some "pool-b";
                    n_instance_type := "m5.large"; n_region := "ap-south-1";
                    n_az := "ap-south-1a"; n_ami_id := "ami-0abc" |};
     snapshot := {| used := false; snapshot_id := None |};
     prices := {| on_demand := 1; old_spot := 5 # 10; new_spot := Some (3 # 10) |};
     timing := {| traffic_switched_at := at_; new_instance_ready_at := at_;
                  old_instance_terminated_at := Some at_ |};
     trigger := "manual" |}.

(** The database after one reported switch, and after two. *)
Definition after_one_switch : db :=
  (switch_report no_faults 1 "agent-1" (move "i-old" "i-new" (sec 1000000)) base_db).2.

Definition after_two_switches : db :=
  (switch_report no_faults 1 "agent-1" (move "i-new" "i-newer" (sec 1090000)) after_one_switch).2.

(** The ledger with two more events: one of agent-1 from 300000 s, more
    than seven days before 1100000 s, put first, and one of agent-2 from
    1050000 s, put last. *)
Definition stale_event : switch_event :=
  event_row 1 "agent-1" (move "i-a" "i-b" (sec 300000)).

Definition foreign_event : switch_event :=
  event_row 1 "agent-2" (move "i-x" "i-y" (sec 1050000)).

Definition among_others (d : db) : db :=
  set_switch_events (fun l => stale_event :: l ++ [foreign_event]) d.

(** The same report delivered a second time. *)
Definition replayed_switch : db :=
  (switch_report no_faults 1 "agent-1" (move "i-old" "i-new" (sec 1000000)) after_one_switch).2.

(** A queue holding command 7, acknowledged at time 2000. *)
Definition executed_command : pending_command :=
  {| pc_agent_id := "agent-1"; pc_instance_id := "i-1";
     pc_target_mode := "ondemand"; pc_target_pool_id := None;
     pc_created_at := 1000; pc_executed_at := Some 2000%Z |}.

Definition queue_db : db :=
  set_pending (fun _ => {[ 7%Z := executed_command ]}) base_db.

End Fixtures.
Import Fixtures.

(** ** Notions used by the further properties *)

Module Notions.
Import Risk Store Api Console.

(** Pool [b] is priced, and pool [p] is priced at least as high, or
    strictly higher. *)
Definition not_above (b p : spot_pool) : Prop :=
  exists q pq, price b = Some q /\ price p = Some pq /\ value q <= value pq.

Definition below (b p : spot_pool) : Prop :=
  exists q pq, price b = Some q /\ price p = Some pq /\ value q < value pq.

(** A decision body with another value of [allowed]. *)
Definition with_allowed (b : bool) (body : decision) : decision :=
  {| d_instance_id := d_instance_id body;
     d_risk_score := d_risk_score body;
     d_recommended_action := d_recommended_action body;
     d_recommended_mode := d_recommended_mode body;
     d_recommended_pool_id := d_recommended_pool_id body;
     d_expected_savings_per_hour := d_expected_savings_per_hour body;
     d_allowed := b;
     d_reason := d_reason body |}.

(** The columns of an instance row that say which instance it is and
    whose, with its price baseline. *)
Definition same_identity (r r' : instance_row) : Prop :=
  i_client_id r' = i_client_id r /\
  i_agent_id r' = i_agent_id r /\
  i_instance_type r' = i_instance_type r /\
  i_region r' = i_region r /\
  i_az r' = i_az r /\
  i_ami_id r' = i_ami_id r /\
  i_installed_at r' = i_installed_at r /\
  i_baseline_ondemand_price r' = i_baseline_ondemand_price r.

End Notions.
Import Notions.

(** ** Further concrete inputs *)

Module Cases.
Import Risk Store Api Console.

(** A snapshot with two pools at the least price: pool-b comes first. *)
Definition pool_c : spot_pool := {| pool_id := "pool-c"; price := Some (PyFloat (3 # 10)) |}.
Definition three_pools : list spot_pool := [pool_a; pool_b; pool_c].

(** Bodies of a force-switch request. *)
Definition switch_to_pool : force_switch_payload :=
  Object (Text "pool") (Text "pool-b") false.

Definition switch_to_ondemand : force_switch_payload :=
  Object (Text "ondemand") (Text "pool-b") false.

(** The letter e with an acute accent, two bytes in UTF-8 (C3 A9), 65
    times: 65 code points in 130 bytes. *)
Definition e_acute : string :=
  String (Ascii.ascii_of_nat 195) (String (Ascii.ascii_of_nat 169) EmptyString).

Definition accented_pool_id : string := String.concat "" (replicate 65 e_acute).

(** The letter a, 129 times. *)
Definition long_pool_id : string := String.concat "" (replicate 129 "a").

End Cases.
Import Cases.

(** * Properties *)

(** ** Comparisons *)

Section Comparisons.

Lemma ltb_lt (a b : Q) : ltb a b = true <-> a < b.
Proof.
  unfold ltb. rewrite negb_true_iff.
  split.
  - intros H. apply Qnot_le_lt. intros Hle.
    apply Qle_bool_iff in Hle. congruence.
  - intros H. destruct (Qle_bool b a) eqn:E; [|reflexivity].
    apply Qle_bool_iff in E. exfalso. exact (Qlt_not_le _ _ H E).
Qed.

Lemma ltb_ge (a b : Q) : ltb a b = false <-> b <= a.
Proof.
  unfold ltb. rewrite negb_false_iff. apply Qle_bool_iff.
Qed.

Lemma gtb_gt (a b : Q) : gtb a b = true <-> b < a.
Proof. apply ltb_lt. Qed.

Lemma gtb_le (a b : Q) : gtb a b = false <-> a <= b.
Proof. apply ltb_ge. Qed.

(** [>] is upward closed in its left argument. *)
Lemma gtb_mono (r1 r2 t : Q) : r1 < r2 -> gtb r1 t = true -> gtb r2 t = true.
Proof.
  rewrite !gtb_gt. intros H12 H. eapply Qlt_trans; eassumption.
Qed.

End Comparisons.

(** ** Risk scorer *)

Section RiskScorer.
Import Risk.

Variable cfg : detector_config.
Variable context : pool_context.

(** The state is decided by the four comparisons alone. *)
Lemma classify_state (r : Q) :
  state_of (classify cfg context r) =
    if gtb r (ratio_absolute_high cfg) then Event
    else if gtb r (ratio_p92 context) then HighRisk
    else if gtb r (ratio_p50 context * (1 + ratio_spike_threshold cfg)) then HighRisk
    else if ltb r (ratio_safe_return cfg) then SafeToReturn
    else Normal.
Proof.
  unfold classify, state_of.
  repeat (match goal with |- context [if ?b then _ else _] => destruct b end; simpl; try reflexivity).
Qed.

Lemma classify_monotone (r1 r2 : Q) :
  r1 < r2 ->
  (rank (state_of (classify cfg context r1)) <= rank (state_of (classify cfg context r2)))%nat.
Proof.
  intros Hlt. rewrite !classify_state.
  destruct (gtb r1 (ratio_absolute_high cfg)) eqn:A1.
  { rewrite (gtb_mono _ _ _ Hlt A1). reflexivity. }
  destruct (gtb r1 (ratio_p92 context)) eqn:B1.
  { rewrite (gtb_mono _ _ _ Hlt B1).
    destruct (gtb r2 (ratio_absolute_high cfg)); simpl; lia. }
  destruct (gtb r1 (ratio_p50 context * (1 + ratio_spike_threshold cfg))) eqn:C1.
  { rewrite (gtb_mono _ _ _ Hlt C1).
    destruct (gtb r2 (ratio_absolute_high cfg)), (gtb r2 (ratio_p92 context)); simpl; lia. }
  destruct (ltb r1 (ratio_safe_return cfg)) eqn:D1.
  { simpl.
    repeat (match goal with |- context [if ?b then _ else _] => destruct b end; simpl; try lia). }
  assert (D2 : ltb r2 (ratio_safe_return cfg) = false).
  { apply ltb_ge. apply ltb_ge in D1.
    apply Qlt_le_weak. eapply Qle_lt_trans; eassumption. }
  rewrite D2.
  repeat (match goal with |- context [if ?b then _ else _] => destruct b end; simpl; try lia).
Qed.

End RiskScorer.

Section RiskScorerClaims.
Import Risk.

(** C4, as the code computes it: with on_demand price 1.00, spot price
    0.95, ratio_p50 = 0.5, ratio_p92 = 0.9 and absolute_high 0.95 the
    ratio is 0.95, which is not strictly above 0.95 but is above
    ratio_p92, so the scorer returns state "high-risk" with score 0.8,
    whatever the spike and safe-return thresholds are. *)
Theorem C4_scenario_high_risk (spike safe discount : Q) :
  exists ratio,
    price_ratio (Some (PyFloat (95 # 100))) (PyFloat 1) = Ok ratio /\
    ratio == 95 # 100 /\
    get_risk_score (scenario_manager spike safe) "pool-a"
      (Some (PyFloat (95 # 100))) discount (PyFloat 1)
      = Ok (8 # 10, HighRisk, AboveP92 ratio (9 # 10)).
Proof.
  exists ((95 # 100) / 1). repeat split.
Qed.

(** C4, counterexample: on the scenario's inputs the scorer does not
    return state "event" with score 0.9. *)
Lemma C4_scenario_not_event :
  get_risk_score (scenario_manager (3 # 10) (5 # 10)) "pool-a"
    (Some (PyFloat (95 # 100))) (5 # 100) (PyFloat 1)
    = Ok (8 # 10, HighRisk, AboveP92 ((95 # 100) / 1) (9 # 10))
  /\ forall s, get_risk_score (scenario_manager (3 # 10) (5 # 10)) "pool-a"
                 (Some (PyFloat (95 # 100))) (5 # 100) (PyFloat 1) = Ok s ->
               ~ (state_of s = Event /\ score_of s == 9 # 10).
Proof.
  split; [reflexivity|].
  intros s Hs [Hstate _].
  vm_compute in Hs. injection Hs as <-. discriminate Hstate.
Qed.

(** C6: the risk scorer is monotone in the price ratio.  For one model
    state and pool, if the ratio computed for the first call is strictly
    below the ratio computed for the second, both calls return and the
    state of the second is at least the state of the first in the order
    safe-to-return < normal < high-risk < event. *)
Theorem C6_risk_state_monotone (self : ModelManager) (pool : string)
    (p1 p2 od1 od2 : number) (c1 c2 r1 r2 : Q) :
  price_ratio (Some p1) od1 = Ok r1 ->
  price_ratio (Some p2) od2 = Ok r2 ->
  r1 < r2 ->
  exists s1 s2,
    get_risk_score self pool (Some p1) c1 od1 = Ok s1 /\
    get_risk_score self pool (Some p2) c2 od2 = Ok s2 /\
    (rank (state_of s1) <= rank (state_of s2))%nat.
Proof.
  intros H1 H2 Hlt. unfold get_risk_score.
  destruct (loaded self); simpl.
  2: { eexists _, _. repeat split. simpl. lia. }
  destruct (pool_contexts self !! pool) as [context|].
  2: { eexists _, _. repeat split. simpl. lia. }
  rewrite H1, H2. simpl.
  eexists _, _. repeat split.
  apply classify_monotone. exact Hlt.
Qed.

Lemma C6_risk_state_monotone_witness :
  exists s1 s2,
    get_risk_score (scenario_manager (3 # 10) (5 # 10)) "pool-a"
      (Some (PyFloat (4 # 10))) 0 (PyFloat 1) = Ok s1 /\
    get_risk_score (scenario_manager (3 # 10) (5 # 10)) "pool-a"
      (Some (PyFloat (96 # 100))) 0 (PyFloat 1) = Ok s2 /\
    (rank (state_of s1) <= rank (state_of s2))%nat.
Proof.
  apply (C6_risk_state_monotone (scenario_manager (3 # 10) (5 # 10)) "pool-a"
           (PyFloat (4 # 10)) (PyFloat (96 # 100)) (PyFloat 1) (PyFloat 1) 0 0
           ((4 # 10) / 1) ((96 # 100) / 1)).
  - reflexivity.
  - reflexivity.
  - reflexivity.
Defined.

End RiskScorerClaims.

(** ** Resolving the current pool *)

Section CurrentPool.
Import Api.

Lemma find_current_price_not_listed (pools : list spot_pool) (cur : string) :
  not_listed pools cur -> find_current_price pools cur = None.
Proof.
  induction pools as [|p rest IH]; intros Habs; simpl; [reflexivity|].
  rewrite bool_decide_eq_false_2.
  - apply IH. intros q Hq. apply Habs. by apply list_elem_of_further.
  - apply Habs. apply list_elem_of_here.
Qed.

Lemma find_current_price_listed (pools : list spot_pool) (cur : string) (v : option number) :
  listed_with pools cur v -> find_current_price pools cur = v.
Proof.
  intros (before & p & after & -> & Hbefore & Hid & Hprice).
  induction before as [|q before IH]; simpl.
  - rewrite bool_decide_eq_true_2; assumption.
  - rewrite bool_decide_eq_false_2.
    + apply IH. intros x Hx. apply Hbefore. by apply list_elem_of_further.
    + apply Hbefore. apply list_elem_of_here.
Qed.

Lemma listed_with_nonempty (pools : list spot_pool) (cur : string) (v : option number) :
  listed_with pools cur v -> exists first rest, pools = first :: rest.
Proof.
  intros (before & p & after & -> & _).
  destruct before as [|q before]; simpl; eauto.
Qed.

(** C1, as the code does it: when the snapshot does not list the
    instance's recorded pool and lists at least one pool, the resolved
    current pool and price are those of the first pool listed. *)
Theorem C1_fallback_first_listed (first : spot_pool) (rest : list spot_pool) (cur : string) :
  not_listed (first :: rest) cur ->
  resolve_current (first :: rest) cur = (price first, pool_id first).
Proof.
  intros Habs. unfold resolve_current.
  rewrite (find_current_price_not_listed _ _ Habs). reflexivity.
Qed.

Lemma C1_fallback_first_listed_witness :
  resolve_current (pool_a :: [pool_b]) "pool-c" = (price pool_a, pool_id pool_a).
Proof.
  apply (C1_fallback_first_listed pool_a [pool_b] "pool-c").
  intros p Hp.
  apply elem_of_cons in Hp as [-> | Hp]; [discriminate|].
  apply elem_of_cons in Hp as [-> | Hp]; [discriminate|].
  by apply elem_of_nil in Hp.
Defined.

(** C1, counterexample: the snapshot lists pool-a at 0.5 and then pool-b
    at 0.3; the recorded pool pool-c is absent.  The cheapest pool is
    pool-b, the resolved pool is pool-a. *)
Lemma C1_fallback_not_cheapest :
  not_listed two_pools "pool-c" /\
  min_by_price two_pools = Ok pool_b /\
  resolve_current two_pools "pool-c" = (Some (PyFloat (5 # 10)), "pool-a") /\
  resolve_current two_pools "pool-c" <> (price pool_b, pool_id pool_b).
Proof.
  split; [|split; [reflexivity | split; [reflexivity | discriminate]]].
  intros p Hp.
  apply elem_of_cons in Hp as [-> | Hp]; [discriminate|].
  apply elem_of_cons in Hp as [-> | Hp]; [discriminate|].
  by apply elem_of_nil in Hp.
Qed.

(** C10: when the snapshot lists the instance's current pool and the
    price found for it is 0 or null, the found price fails the truth
    test, so the pool is handled as an absent one: current pool and
    price are rebound to the first pool of the snapshot's list. *)
Theorem C10_falsy_price_rebinds_to_first (pools : list spot_pool) (cur : string)
    (v : option number) :
  listed_with pools cur v ->
  truthy v = false ->
  exists first rest,
    pools = first :: rest /\
    resolve_current pools cur = (price first, pool_id first).
Proof.
  intros Hlisted Hfalsy.
  destruct (listed_with_nonempty _ _ _ Hlisted) as (first & rest & ->).
  exists first, rest. split; [reflexivity|].
  unfold resolve_current.
  rewrite (find_current_price_listed _ _ _ Hlisted), Hfalsy. reflexivity.
Qed.

Lemma C10_falsy_price_rebinds_to_first_witness :
  exists first rest,
    stale_pools = first :: rest /\
    resolve_current stale_pools "pool-b" = (price first, pool_id first).
Proof.
  apply (C10_falsy_price_rebinds_to_first stale_pools "pool-b" (Some (PyInt 0))).
  - exists [pool_a], pool_b_free, []. repeat split.
    intros p Hp.
    apply elem_of_cons in Hp as [-> | Hp]; [discriminate|].
    by apply elem_of_nil in Hp.
  - reflexivity.
Defined.

(** The same with a null price, and the effect on a truthy price. *)
Example null_price_rebinds :
  resolve_current [pool_a; {| pool_id := "pool-b"; price := None |}] "pool-b"
    = (Some (PyFloat (5 # 10)), "pool-a").
Proof. reflexivity. Qed.

Example listed_price_kept :
  resolve_current two_pools "pool-b" = (Some (PyFloat (3 # 10)), "pool-b").
Proof. reflexivity. Qed.

End CurrentPool.

(** ** The gates of [get_decision] *)

Section Gates.
Import Risk Store Api.

Variable mm : ModelManager.
Variables utcnow db_now client_id : Z.
Variable agent_id : string.
Variable instance : instance_payload.
Variable pricing : pricing_payload.
Variable d : db.

Lemma gate_answer_present (why : reason) (mode : string) :
  current_mode instance = Some mode ->
  gate_answer instance why d = (Json (stay_put instance mode why), d).
Proof.
  intros H. unfold gate_answer, handle, lift, blocked. rewrite H. reflexivity.
Qed.

Lemma gate_answer_absent (why : reason) :
  current_mode instance = None ->
  gate_answer instance why d
    = (Error500 KeyError, (log_system_event "decision_error" "error" d).2).
Proof.
  intros H. unfold gate_answer, handle, lift, blocked. rewrite H. reflexivity.
Qed.

Lemma gate_answer_cases (why : reason) :
  gate_answer instance why d
    = match current_mode instance with
      | Some mode => (Json (stay_put instance mode why), d)
      | None => (Error500 KeyError, (log_system_event "decision_error" "error" d).2)
      end.
Proof.
  unfold gate_answer, handle, lift, blocked.
  destruct (current_mode instance); reflexivity.
Qed.

Lemma gate_answer_Json (why : reason) (body : decision) (dd : db) :
  gate_answer instance why d = (Json body, dd) ->
  d_reason body = why /\ dd = d.
Proof.
  rewrite gate_answer_cases.
  destruct (current_mode instance); [|discriminate].
  intros [= <- <-]. split; reflexivity.
Qed.

Lemma get_decision_no_config :
  select_config agent_id client_id d = None ->
  get_decision mm no_faults utcnow db_now client_id agent_id instance pricing d
    = gate_answer instance AgentDisabled d.
Proof.
  intros H. unfold gate_answer, get_decision, handle, get_decision_try, mbind, io_bind,
    execute_query.
  simpl. rewrite H. reflexivity.
Qed.

Lemma get_decision_disabled (cfg : agent_config) :
  select_config agent_id client_id d = Some cfg ->
  enabled cfg = false ->
  get_decision mm no_faults utcnow db_now client_id agent_id instance pricing d
    = gate_answer instance AgentDisabled d.
Proof.
  intros H E. unfold gate_answer, get_decision, handle, get_decision_try, mbind, io_bind,
    execute_query.
  simpl. rewrite H, E. reflexivity.
Qed.

Lemma get_decision_rate_limited (cfg : agent_config) :
  select_config agent_id client_id d = Some cfg ->
  enabled cfg = true ->
  rate_gate (count_recent_switches agent_id db_now d) cfg = true ->
  get_decision mm no_faults utcnow db_now client_id agent_id instance pricing d
    = gate_answer instance
        (SwitchLimitReached (count_recent_switches agent_id db_now d)
           (max_switches_per_week cfg)) d.
Proof.
  intros H E R. unfold gate_answer, get_decision, handle, get_decision_try, mbind, io_bind,
    execute_query.
  simpl. rewrite H, E. simpl. rewrite R. reflexivity.
Qed.

Lemma get_decision_dwell_limited (cfg : agent_config) (hours : Q) :
  select_config agent_id client_id d = Some cfg ->
  enabled cfg = true ->
  rate_gate (count_recent_switches agent_id db_now d) cfg = false ->
  dwell_gate utcnow (select_last_switch (instance_id instance) d) cfg = Some hours ->
  get_decision mm no_faults utcnow db_now client_id agent_id instance pricing d
    = gate_answer instance (TooSoonToSwitch hours (min_pool_duration_hours cfg)) d.
Proof.
  intros H E R W. unfold gate_answer, get_decision, handle, get_decision_try, mbind, io_bind,
    execute_query.
  simpl. rewrite H, E. simpl. rewrite R, W. reflexivity.
Qed.

Lemma get_decision_evaluating (cfg : agent_config) :
  reaches_evaluating utcnow db_now client_id agent_id instance d cfg ->
  get_decision mm no_faults utcnow db_now client_id agent_id instance pricing d
    = match evaluate mm cfg instance pricing with
      | Ok ev =>
          (Json (decided instance cfg ev),
           set_risk_scores
             (fun l => l ++ [audit_row client_id agent_id instance cfg ev]) d)
      | Raise e =>
          (Error500 e, (log_system_event "decision_error" "error" d).2)
      end.
Proof.
  intros (H & E & R & W).
  unfold get_decision, handle, get_decision_try, mbind, io_bind, execute_query, lift.
  simpl. rewrite H, E. simpl. rewrite R, W.
  destruct (evaluate mm cfg instance pricing); reflexivity.
Qed.

End Gates.

(** ** The evaluation *)

Section Evaluation.
Import Risk Store Api.

Lemma get_risk_score_reason (self : ModelManager) (pool : string) (cp : option number)
    (cd : Q) (od : number) (score : Q) (state : risk_state) (why : reason) :
  get_risk_score self pool cp cd od = Ok (score, state, why) ->
  gate_reason why = false.
Proof.
  unfold get_risk_score.
  destruct (loaded self); simpl; [|intros [= <- <- <-]; reflexivity].
  destruct (pool_contexts self !! pool) as [context|]; [|intros [= <- <- <-]; reflexivity].
  destruct (price_ratio cp od) as [ratio|e]; simpl; [|discriminate].
  unfold classify.
  repeat (match goal with |- context [if ?b then _ else _] => destruct b end);
    intros [= <- <- <-]; reflexivity.
Qed.

(** No evaluation answers with the reason of a gate. *)
Lemma evaluate_reason (mm : ModelManager) (cfg : agent_config)
    (instance : instance_payload) (pricing : pricing_payload) (ev : evaluation) :
  evaluate mm cfg instance pricing = Ok ev ->
  gate_reason (ev_reason ev) = false.
Proof.
  unfold evaluate.
  destruct (resolve_current _ _) as [csp pool].
  destruct (if gtb (value (on_demand_price pricing)) 0 then _ else _) as [cd|e];
    simpl; [|discriminate].
  destruct (get_risk_score mm pool csp cd (on_demand_price pricing))
    as [[[score state] why]|e] eqn:Hscore; simpl; [|discriminate].
  apply get_risk_score_reason in Hscore.
  repeat (match goal with
          | |- context [if ?b then _ else _] => destruct b
          | |- context [mbind _ ?r] => destruct r; simpl
          end; simpl);
    try discriminate; intros [= <-]; simpl; try reflexivity; exact Hscore.
Qed.

End Evaluation.

(** ** Rate gate *)

Section RateGate.
Import Risk Store Api.

Lemma gate_reason_not_rate_limited (r : reason) :
  gate_reason r = false -> rate_limited r = false.
Proof. destruct r; simpl; congruence. Qed.

(** The count of the rate gate's query is the count of the agent's
    events of the trailing seven days. *)
Lemma count_recent_switches_weekly (agent_id : string) (now : Z) (d : db) :
  count_recent_switches agent_id now d = weekly_switches agent_id now (switch_events d).
Proof.
  unfold count_recent_switches.
  induction (switch_events d) as [|e rest IH]; [reflexivity|].
  rewrite filter_cons. simpl weekly_switches. rewrite <- IH.
  destruct (decide (in_trailing_week agent_id now e)) as [[Ha Ht]|Hn];
    destruct (decide (se_agent_id e = agent_id /\ (now - se_timestamp e <= seven_days)%Z))
      as [[Ha' Ht']|Hn'].
  - simpl length. lia.
  - exfalso. apply Hn'. split; [assumption | lia].
  - exfalso. apply Hn. split; [assumption | lia].
  - reflexivity.
Qed.

(** C8: for an enabled agent, the rate gate blocks the decision exactly
    when the count of the agent's switch events in the trailing 7 days
    is at least max_switches_per_week.  With the count at the limit or
    above, the call ends at the rate gate: the answer is stay, citing
    count and limit, and nothing is written (when the instance payload
    has no current_mode, building that answer raises KeyError and the
    call is answered 500).  With the count below the limit, no answer
    is the rate gate's: the call goes on to the dwell gate and, past
    it, to the evaluation. *)
Theorem C8_rate_gate_boundary (mm : ModelManager) (utcnow db_now client_id : Z)
    (agent_id : string) (instance : instance_payload) (pricing : pricing_payload)
    (d : db) (cfg : agent_config) :
  select_config agent_id client_id d = Some cfg ->
  enabled cfg = true ->
  ((max_switches_per_week cfg <= weekly_switches agent_id db_now (switch_events d))%Z ->
   get_decision mm no_faults utcnow db_now client_id agent_id instance pricing d
     = match current_mode instance with
       | Some mode =>
           (Json (stay_put instance mode
                    (SwitchLimitReached (weekly_switches agent_id db_now (switch_events d))
                       (max_switches_per_week cfg))), d)
       | None => (Error500 KeyError, (log_system_event "decision_error" "error" d).2)
       end)
  /\
  ((weekly_switches agent_id db_now (switch_events d) < max_switches_per_week cfg)%Z ->
   (forall body,
      (get_decision mm no_faults utcnow db_now client_id agent_id instance pricing d).1
        = Json body ->
      rate_limited (d_reason body) = false)
   /\
   get_decision mm no_faults utcnow db_now client_id agent_id instance pricing d
     = match dwell_gate utcnow (select_last_switch (instance_id instance) d) cfg with
       | Some hours =>
           gate_answer instance (TooSoonToSwitch hours (min_pool_duration_hours cfg)) d
       | None =>
           match evaluate mm cfg instance pricing with
           | Ok ev =>
               (Json (decided instance cfg ev),
                set_risk_scores
                  (fun l => l ++ [audit_row client_id agent_id instance cfg ev]) d)
           | Raise e => (Error500 e, (log_system_event "decision_error" "error" d).2)
           end
       end).
Proof.
  intros Hcfg Hen. rewrite <- count_recent_switches_weekly. split.
  - intros Hle.
    rewrite (get_decision_rate_limited mm utcnow db_now client_id agent_id
               instance pricing d cfg Hcfg Hen).
    + destruct (current_mode instance) as [mode|] eqn:Hmode.
      * by apply gate_answer_present.
      * by apply gate_answer_absent.
    + unfold rate_gate. by apply bool_decide_eq_true_2.
  - intros Hlt.
    assert (R : rate_gate (count_recent_switches agent_id db_now d) cfg = false).
    { unfold rate_gate. apply bool_decide_eq_false_2. lia. }
    destruct (dwell_gate utcnow (select_last_switch (instance_id instance) d) cfg)
      as [hours|] eqn:W.
    + rewrite (get_decision_dwell_limited mm utcnow db_now client_id agent_id
                 instance pricing d cfg hours Hcfg Hen R W).
      split; [|reflexivity].
      intros body. unfold gate_answer, handle, lift, blocked.
      destruct (current_mode instance); simpl; [|discriminate].
      intros [= <-]. reflexivity.
    + rewrite (get_decision_evaluating mm utcnow db_now client_id agent_id
                 instance pricing d cfg (conj Hcfg (conj Hen (conj R W)))).
      split; [|reflexivity].
      intros body.
      destruct (evaluate mm cfg instance pricing) as [ev|e] eqn:Hev; simpl.
      * intros [= <-]. simpl. apply gate_reason_not_rate_limited.
        by apply evaluate_reason in Hev.
      * discriminate.
Qed.

(** With limit 2, at 1100000 s, in a ledger that also holds an event of
    agent-1 older than seven days and an event of agent-2: two events
    of agent-1 in the week block; one does not, and the call is
    evaluated and audited. *)
Lemma C8_rate_gate_boundary_witness :
  get_decision models no_faults (sec 1100000) (sec 1100000) 1 "agent-1" (on_spot "i-newer")
    snapshot_ab (among_others after_two_switches)
    = (Json (stay_put (on_spot "i-newer") "spot" (SwitchLimitReached 2 2)),
       among_others after_two_switches)
  /\
  (forall body,
     (get_decision models no_faults (sec 1100000) (sec 1100000) 1 "agent-1" (on_spot "i-new")
        snapshot_ab (among_others after_one_switch)).1 = Json body ->
     rate_limited (d_reason body) = false)
  /\
  length (risk_scores
            (get_decision models no_faults (sec 1100000) (sec 1100000) 1 "agent-1"
               (on_spot "i-new") snapshot_ab (among_others after_one_switch)).2) = 1%nat.
Proof.
  split.
  - apply (C8_rate_gate_boundary models (sec 1100000) (sec 1100000) 1 "agent-1" (on_spot "i-newer")
             snapshot_ab (among_others after_two_switches) policy); [reflexivity | reflexivity |].
    vm_compute. discriminate.
  - destruct (C8_rate_gate_boundary models (sec 1100000) (sec 1100000) 1 "agent-1"
                (on_spot "i-new") snapshot_ab (among_others after_one_switch) policy)
      as [_ Hbelow]; [reflexivity | reflexivity |].
    destruct Hbelow as [Hbody Hnext]; [vm_compute; reflexivity|].
    split; [exact Hbody|]. rewrite Hnext. reflexivity.
Defined.

(** The window is closed at seven days: an event exactly seven days old
    counts, an event one microsecond older does not, and neither does
    another agent's. *)
Example weekly_switches_window :
  seven_days = sec 604800 /\
  weekly_switches "agent-1" (sec 1100000)
    [event_row 1 "agent-1" (move "i-a" "i-b" (sec 495200));
     event_row 1 "agent-1" (move "i-b" "i-c" (sec 495200 - 1));
     event_row 1 "agent-2" (move "i-x" "i-y" (sec 1100000))] = 1%Z /\
  count_recent_switches "agent-1" (sec 1100000)
    (set_switch_events
       (fun _ => [event_row 1 "agent-1" (move "i-a" "i-b" (sec 495200));
                  event_row 1 "agent-1" (move "i-b" "i-c" (sec 495200 - 1));
                  event_row 1 "agent-2" (move "i-x" "i-y" (sec 1100000))]) base_db) = 1%Z.
Proof. repeat split. Qed.

End RateGate.

(** ** Dwell gate *)

Section DwellGate.
Import Risk Store Api.

Lemma latest_Some (ts : list Z) (m : Z) :
  latest ts = Some m <-> m ∈ ts /\ forall t, t ∈ ts -> (t <= m)%Z.
Proof.
  revert m. induction ts as [|t rest IH]; intros m; simpl.
  - split; [discriminate|]. intros [H _]. by apply elem_of_nil in H.
  - destruct (latest rest) as [m'|] eqn:E.
    + specialize (IH m'). destruct IH as [IH _].
      destruct (IH eq_refl) as [Hin Hmax].
      split.
      * intros [= <-]. split.
        -- destruct (Z.max_spec t m') as [[_ ->] | [_ ->]];
             [by apply list_elem_of_further | apply list_elem_of_here].
        -- intros x Hx. apply elem_of_cons in Hx as [-> | Hx]; [lia|].
           specialize (Hmax x Hx). lia.
      * intros [Hm Hall]. f_equal.
        assert (t <= m)%Z by (apply Hall, list_elem_of_here).
        assert (m' <= m)%Z by (by apply Hall, list_elem_of_further).
        apply elem_of_cons in Hm as [-> | Hm]; [lia|].
        specialize (Hmax m Hm). lia.
    + assert (rest = []) as ->.
      { destruct rest as [|x rest']; [reflexivity|].
        simpl in E. destruct (latest rest'); discriminate. }
      split.
      * intros [= <-]. split; [apply list_elem_of_here|].
        intros x Hx. apply list_elem_of_singleton in Hx as ->. lia.
      * intros [Hm _]. by apply list_elem_of_singleton in Hm as ->.
Qed.

(** The row found by the query is a most recent event among those whose
    [instance_id] or [new_instance_id] is the instance. *)
Lemma select_last_switch_Some (iid : string) (d : db) (ts : Z) :
  select_last_switch iid d = Some ts <->
  exists e, most_recent (names_instance iid) d e /\ se_timestamp e = ts.
Proof.
  unfold select_last_switch, most_recent. rewrite latest_Some. split.
  - intros [Hin Hmax].
    apply list_elem_of_fmap in Hin as (e & -> & He).
    apply list_elem_of_filter in He as [Hn He].
    exists e. repeat split; try assumption.
    intros e' He' Hn'. apply Hmax.
    apply list_elem_of_fmap_2. by apply list_elem_of_filter.
  - intros (e & (He & Hn & Hmax) & <-). split.
    + apply list_elem_of_fmap_2. by apply list_elem_of_filter.
    + intros t Ht. apply list_elem_of_fmap in Ht as (e' & -> & He').
      apply list_elem_of_filter in He' as [Hn' He']. by apply Hmax.
Qed.

Lemma dwell_gate_blocks (utcnow : Z) (last_switch : option Z) (cfg : agent_config) :
  is_Some (dwell_gate utcnow last_switch cfg) <->
  exists ts, last_switch = Some ts /\
             hours_since utcnow ts < inject_Z (min_pool_duration_hours cfg).
Proof.
  unfold dwell_gate. destruct last_switch as [ts|].
  - destruct (ltb (hours_since utcnow ts) _) eqn:E.
    + apply ltb_lt in E. split; eauto.
    + apply ltb_ge in E. split.
      * intros [x Hx]. discriminate.
      * intros (ts' & [= <-] & Hlt). exfalso. exact (Qlt_not_le _ _ Hlt E).
  - split.
    + intros [x Hx]. discriminate.
    + intros (ts & Hts & _). discriminate.
Qed.

(** The dwell gate as the code has it: it blocks exactly when the ledger
    holds an event whose instance_id or new_instance_id column is the
    instance's id and the hours elapsed since the most recent such event
    are strictly less than min_pool_duration_hours; elapsed hours equal
    to the minimum do not block; and switch_report writes the destination
    instance into both columns, so an event names an instance exactly
    when the instance is its destination. *)
Lemma dwell_gate_boundary (utcnow : Z) (iid : string) (d : db) (cfg : agent_config) :
  (is_Some (dwell_gate utcnow (select_last_switch iid d) cfg) <->
   exists e, most_recent (names_instance iid) d e /\
             hours_since utcnow (se_timestamp e) < inject_Z (min_pool_duration_hours cfg))
  /\
  (forall ts, hours_since utcnow ts == inject_Z (min_pool_duration_hours cfg) ->
              dwell_gate utcnow (Some ts) cfg = None)
  /\
  (forall client_id agent_id data,
      names_instance iid (event_row client_id agent_id data) <->
      n_instance_id (new_inst data) = iid).
Proof.
  split; [|split].
  - rewrite dwell_gate_blocks. split.
    + intros (ts & Hts & Hlt). apply select_last_switch_Some in Hts as (e & He & <-).
      eauto.
    + intros (e & He & Hlt). exists (se_timestamp e). split; [|assumption].
      apply select_last_switch_Some. eauto.
  - intros ts Heq. unfold dwell_gate.
    assert (E : ltb (hours_since utcnow ts) (inject_Z (min_pool_duration_hours cfg)) = false).
    { apply ltb_ge. rewrite Heq. apply Qle_refl. }
    rewrite E. reflexivity.
  - intros client_id agent_id data. unfold names_instance. simpl. tauto.
Qed.

(** 24 hours after the switch the destination instance is no longer
    blocked; one hour after it, it is. *)
Example dwell_gate_boundary_day :
  dwell_gate (sec 1086400) (Some (sec 1000000)) policy = None /\
  is_Some (dwell_gate (sec 1003600) (select_last_switch "i-new" after_one_switch) policy).
Proof.
  split.
  - apply (dwell_gate_boundary (sec 1086400) "i-new" after_one_switch policy).
    reflexivity.
  - apply (dwell_gate_boundary (sec 1003600) "i-new" after_one_switch policy).
    exists (event_row 1 "agent-1" (move "i-old" "i-new" (sec 1000000))).
    split; [|reflexivity].
    split; [apply list_elem_of_here|].
    split; [left; reflexivity|].
    intros e' He' _.
    apply list_elem_of_singleton in He' as ->. reflexivity.
Qed.

(** C7, on the failing input: instance i-old was the source of a switch
    to i-new one hour ago and the minimum is 24 hours, so the most recent
    switch event touching i-old, as source or destination, is too recent
    and the dwell gate should block.  The event names only the
    destination i-new in the columns the query reads, the query finds no
    row for i-old, and the decide call for i-old passes the dwell gate
    and is evaluated and audited.  ([get_switch_history] selects on
    [old_instance_id] or [new_instance_id].) *)
Theorem C7_source_instance_not_blocked :
  (exists e, most_recent (touches "i-old") after_one_switch e /\
             hours_since (sec 1003600) (se_timestamp e) < inject_Z (min_pool_duration_hours policy))
  /\ dwell_gate (sec 1003600) (select_last_switch "i-old" after_one_switch) policy = None
  /\ exists body d',
       get_decision models no_faults (sec 1003600) (sec 1003600) 1 "agent-1" (on_spot "i-old")
         snapshot_ab after_one_switch = (Json body, d')
       /\ gate_reason (d_reason body) = false
       /\ length (risk_scores d') = S (length (risk_scores after_one_switch)).
Proof.
  split; [|split].
  - exists (event_row 1 "agent-1" (move "i-old" "i-new" (sec 1000000))).
    split; [|reflexivity].
    split; [apply list_elem_of_here|].
    split; [left; reflexivity|].
    intros e' He' _.
    apply list_elem_of_singleton in He' as ->. reflexivity.
  - reflexivity.
  - eexists _, _. split; [reflexivity|]. split; reflexivity.
Qed.

End DwellGate.

(** ** Audit rows *)

Section Audit.
Import Risk Store Api.

(** C9, as the code does it.  A decide call rejected by the disabled,
    rate or dwell gate writes no Decision audit row; when its instance
    payload carries current_mode it returns action stay, risk_score 0.0
    and allowed false and leaves every table as it was, and when it does
    not, building the gate's answer raises KeyError and the call is
    answered 500.  A decide call that reaches the evaluation and whose
    evaluation raises no exception returns the computed decision and
    appends exactly one audit row carrying that decision, whatever the
    action; one whose evaluation raises is answered 500 and appends
    none. *)
Theorem C9_audit_row_per_evaluation (mm : ModelManager) (utcnow db_now client_id : Z)
    (agent_id : string) (instance : instance_payload) (pricing : pricing_payload)
    (d : db) :
  ((select_config agent_id client_id d = None \/
    exists cfg, select_config agent_id client_id d = Some cfg /\
                (enabled cfg = false \/
                 rate_gate (count_recent_switches agent_id db_now d) cfg = true \/
                 is_Some (dwell_gate utcnow
                            (select_last_switch (instance_id instance) d) cfg))) ->
   risk_scores
     (get_decision mm no_faults utcnow db_now client_id agent_id instance pricing d).2
     = risk_scores d /\
   (is_Some (current_mode instance) ->
    exists body,
      get_decision mm no_faults utcnow db_now client_id agent_id instance pricing d
        = (Json body, d) /\
      gate_reason (d_reason body) = true /\
      d_recommended_action body = Stay /\
      d_risk_score body = 0 /\
      d_allowed body = false) /\
   (current_mode instance = None ->
    (get_decision mm no_faults utcnow db_now client_id agent_id instance pricing d).1
      = Error500 KeyError))
  /\
  (forall cfg,
      reaches_evaluating utcnow db_now client_id agent_id instance d cfg ->
      (forall ev,
          evaluate mm cfg instance pricing = Ok ev ->
          get_decision mm no_faults utcnow db_now client_id agent_id instance pricing d
            = (Json (decided instance cfg ev),
               set_risk_scores
                 (fun l => l ++ [audit_row client_id agent_id instance cfg ev]) d) /\
          rs_recommended_action (audit_row client_id agent_id instance cfg ev)
            = d_recommended_action (decided instance cfg ev)) /\
      (forall e,
          evaluate mm cfg instance pricing = Raise e ->
          (get_decision mm no_faults utcnow db_now client_id agent_id instance pricing d).1
            = Error500 e /\
          risk_scores
            (get_decision mm no_faults utcnow db_now client_id agent_id instance pricing d).2
            = risk_scores d)).
Proof.
  split.
  - intros Hgate.
    assert (Hanswer : exists why,
      gate_reason why = true /\
      get_decision mm no_faults utcnow db_now client_id agent_id instance pricing d
        = gate_answer instance why d).
    { destruct Hgate as [Hnone | (cfg & Hcfg & Hgate)].
      - eexists. split; [|by apply get_decision_no_config]. reflexivity.
      - destruct (enabled cfg) eqn:Hen.
        2: { eexists. split; [|by eapply get_decision_disabled]. reflexivity. }
        destruct (rate_gate (count_recent_switches agent_id db_now d) cfg) eqn:R.
        { eexists. split; [|by eapply get_decision_rate_limited]. reflexivity. }
        destruct Hgate as [? | [? | [hours W]]]; try discriminate.
        eexists. split; [|by eapply get_decision_dwell_limited]. reflexivity. }
    destruct Hanswer as (why & Hwhy & ->).
    destruct (current_mode instance) as [mode|] eqn:Hmode.
    + rewrite (gate_answer_present instance d why mode Hmode).
      split; [reflexivity|]. split; [|discriminate].
      intros _. eexists. split; [reflexivity|]. repeat split. exact Hwhy.
    + rewrite (gate_answer_absent instance d why Hmode).
      split; [reflexivity|]. split; [|reflexivity].
      intros [mode Hsome]. discriminate.
  - intros cfg Hreach.
    rewrite (get_decision_evaluating mm utcnow db_now client_id agent_id
               instance pricing d cfg Hreach).
    split.
    + intros ev ->. split; reflexivity.
    + intros e ->. split; reflexivity.
Qed.

Lemma C9_audit_row_per_evaluation_witness :
  exists ev,
    evaluate models policy (on_spot "i-1") snapshot_ab = Ok ev /\
    get_decision models no_faults (sec 1000000) (sec 1000000) 1 "agent-1" (on_spot "i-1")
      snapshot_ab base_db
      = (Json (decided (on_spot "i-1") policy ev),
         set_risk_scores
           (fun l => l ++ [audit_row 1 "agent-1" (on_spot "i-1") policy ev]) base_db) /\
    rs_recommended_action (audit_row 1 "agent-1" (on_spot "i-1") policy ev)
      = d_recommended_action (decided (on_spot "i-1") policy ev).
Proof.
  destruct (C9_audit_row_per_evaluation models (sec 1000000) (sec 1000000) 1 "agent-1"
              (on_spot "i-1") snapshot_ab base_db) as [_ Hevaluated].
  destruct (Hevaluated policy) as [Hrow _]; [repeat split|].
  eexists. split; [reflexivity|]. apply Hrow. reflexivity.
Defined.

(** C9, counterexample.  First: an enabled agent with no recorded switch
    sends a snapshot that lists no pool.  The call passes the three
    gates and reaches the evaluation, where the price of the current
    pool is still [None] and the division raises; the call answers 500
    and the audit table gets no row.  Second: the same agent sends the
    two-pool snapshot and the insert of the audit row fails; the call
    answers 500 and the audit table gets no row.  Third: an agent at
    its weekly limit sends an instance payload without current_mode.
    The call is rejected by the rate gate, and the answer is 500, not
    stay. *)
Lemma C9_raising_calls :
  (reaches_evaluating (sec 1000000) (sec 1000000) 1 "agent-1" (on_spot "i-1") base_db policy /\
   exists d',
     get_decision models no_faults (sec 1000000) (sec 1000000) 1 "agent-1" (on_spot "i-1")
       snapshot_empty base_db = (Error500 TypeError, d') /\
     risk_scores d' = risk_scores base_db)
  /\
  (exists d',
     get_decision models (fault_at 3) (sec 1000000) (sec 1000000) 1 "agent-1" (on_spot "i-1")
       snapshot_ab base_db = (Error500 DatabaseError, d') /\
     risk_scores d' = risk_scores base_db)
  /\
  (select_config "agent-1" 1 after_two_switches = Some policy /\
   rate_gate (count_recent_switches "agent-1" (sec 1100000) after_two_switches) policy = true /\
   exists d',
     get_decision models no_faults (sec 1100000) (sec 1100000) 1 "agent-1"
       (modeless "i-newer") snapshot_ab after_two_switches = (Error500 KeyError, d') /\
     risk_scores d' = risk_scores after_two_switches).
Proof.
  split; [|split].
  - split; [repeat split|].
    eexists. split; reflexivity.
  - eexists. split; reflexivity.
  - split; [reflexivity|]. split; [reflexivity|].
    eexists. split; reflexivity.
Qed.

(** A price that is an integer beyond the range of a float: the division
    by the on-demand price raises, and the call is not audited. *)
Example decide_overflow_unaudited :
  reaches_evaluating (sec 1000000) (sec 1000000) 1 "agent-1" (on_spot "i-1") base_db policy /\
  exists d',
    get_decision models no_faults (sec 1000000) (sec 1000000) 1 "agent-1" (on_spot "i-1")
      {| spot_pools := [{| pool_id := "pool-a"; price := Some (PyInt (10 ^ 400)) |}];
         on_demand_price := PyInt 1 |} base_db = (Error500 OverflowError, d') /\
    risk_scores d' = risk_scores base_db.
Proof.
  split; [repeat split|].
  exists (log_system_event "decision_error" "error" base_db).2.
  split; vm_compute; reflexivity.
Qed.

(** The same call with the two-pool snapshot is audited: the agent is on
    pool-a at 0.5, pool-b at 0.3 saves 20 percent of the on-demand price. *)
Example decide_switch_pool :
  exists body d',
    get_decision models no_faults (sec 1000000) (sec 1000000) 1 "agent-1" (on_spot "i-1")
      snapshot_ab base_db = (Json body, d') /\
    d_recommended_action body = SwitchPool /\
    d_recommended_pool_id body = Some "pool-b" /\
    length (risk_scores d') = 1%nat.
Proof. eexists _, _. repeat split. Qed.

(** The answer is rounded, the audit row is not: with pool-a at
    0.5000004 the row records savings of 0.2000004 an hour and the
    answer carries 0.2. *)
Example decide_rounds_answer :
  exists body d' row,
    get_decision models no_faults (sec 1000000) (sec 1000000) 1 "agent-1" (on_spot "i-1")
      {| spot_pools := [{| pool_id := "pool-a";
                           price := Some (PyFloat (5000004 # 10000000)) |}; pool_b];
         on_demand_price := PyFloat 1 |} base_db = (Json body, d') /\
    risk_scores d' = [row] /\
    rs_expected_savings_per_hour row == 2000004 # 10000000 /\
    d_expected_savings_per_hour body = 1 # 5 /\
    rs_risk_score row = 3 # 10 /\
    d_risk_score body = 3 # 10.
Proof. eexists _, _, _. repeat split. Qed.

End Audit.

(** ** Command queue *)

Section CommandQueue.
Import Store Api.

Lemma acknowledge_same (t : Z) (c : pending_command) :
  pc_executed_at c = Some t -> acknowledge t c = c.
Proof. destruct c; simpl; intros ->; reflexivity. Qed.

Lemma set_executed_rows_hit (now id : Z) (agent_id : string)
    (m : gmap Z pending_command) (c : pending_command) :
  m !! id = Some c ->
  pc_agent_id c = agent_id ->
  set_executed_rows now id agent_id m = <[id := acknowledge now c]> m.
Proof.
  intros Hc Ha. unfold set_executed_rows.
  rewrite Hc, bool_decide_eq_true_2; [reflexivity | assumption].
Qed.

(** C2, as the code does it: acknowledging again a command that is
    already executed succeeds and keeps executed_at set, but stores the
    time of the new acknowledgment in it; the command's other fields,
    the other commands and the other tables are unchanged, and the
    stored state is unchanged only when the new time equals the stored
    one. *)
Theorem C2_reacknowledge_overwrites_executed_at (d : db) (now id t : Z)
    (agent_id : string) (c : pending_command) :
  pending_switch_commands d !! id = Some c ->
  pc_agent_id c = agent_id ->
  pc_executed_at c = Some t ->
  exists d',
    mark_command_executed no_faults now agent_id id d = (Json tt, d') /\
    pending_switch_commands d' !! id = Some (acknowledge now c) /\
    pc_executed_at (acknowledge now c) = Some now /\
    (forall id', id' <> id ->
                 pending_switch_commands d' !! id' = pending_switch_commands d !! id') /\
    (core d').1 = (core d).1 /\
    system_events d' = system_events d /\
    (now = t -> d' = d).
Proof.
  intros Hc Ha Ht.
  exists (set_executed now id agent_id d).
  split; [reflexivity|].
  unfold set_executed. simpl.
  rewrite (set_executed_rows_hit now id agent_id _ c Hc Ha).
  split; [apply lookup_insert_eq|].
  split; [reflexivity|].
  split; [intros id' Hne; by apply lookup_insert_ne|].
  split; [reflexivity|].
  split; [reflexivity|].
  intros ->. unfold set_pending.
  rewrite (set_executed_rows_hit t id agent_id _ c Hc Ha).
  rewrite (acknowledge_same t c Ht), (insert_id _ _ _ Hc).
  destruct d; reflexivity.
Qed.

Lemma C2_reacknowledge_overwrites_executed_at_witness :
  exists d',
    mark_command_executed no_faults 3000 "agent-1" 7 queue_db = (Json tt, d') /\
    pending_switch_commands d' !! 7%Z = Some (acknowledge 3000 executed_command) /\
    pc_executed_at (acknowledge 3000 executed_command) = Some 3000%Z /\
    (forall id', id' <> 7%Z ->
                 pending_switch_commands d' !! id' = pending_switch_commands queue_db !! id') /\
    (core d').1 = (core queue_db).1 /\
    system_events d' = system_events queue_db /\
    (3000%Z = 2000%Z -> d' = queue_db).
Proof.
  apply (C2_reacknowledge_overwrites_executed_at queue_db 3000 7 2000 "agent-1"
           executed_command).
  - reflexivity.
  - reflexivity.
  - reflexivity.
Defined.

(** C2, counterexample: command 7 was executed at time 2000; its agent
    acknowledges it again at time 3000 and executed_at becomes 3000. *)
Lemma C2_reacknowledge_changes_executed_at :
  (pc_executed_at <$> pending_switch_commands queue_db !! 7%Z) = Some (Some 2000%Z) /\
  exists d',
    mark_command_executed no_faults 3000 "agent-1" 7 queue_db = (Json tt, d') /\
    (pc_executed_at <$> pending_switch_commands d' !! 7%Z) = Some (Some 3000%Z) /\
    pending_switch_commands d' <> pending_switch_commands queue_db.
Proof.
  split; [reflexivity|].
  eexists. split; [reflexivity|]. split; [reflexivity|].
  intros H.
  assert (E : pc_executed_at <$>
                pending_switch_commands (set_executed 3000 7 "agent-1" queue_db) !! 7%Z
              = pc_executed_at <$> pending_switch_commands queue_db !! 7%Z)
    by (f_equal; f_equal; exact H).
  vm_compute in E. discriminate E.
Qed.

(** An unknown id and a foreign agent change nothing. *)
Lemma set_executed_rows_miss (now id : Z) (agent_id : string)
    (m : gmap Z pending_command) :
  (m !! id = None \/ exists c, m !! id = Some c /\ pc_agent_id c <> agent_id) ->
  set_executed_rows now id agent_id m = m.
Proof.
  unfold set_executed_rows. intros [-> | (c & -> & Hne)]; [reflexivity|].
  by rewrite bool_decide_eq_false_2.
Qed.

(** The first acknowledgment sets executed_at. *)
Lemma first_acknowledgment (now id : Z) (agent_id : string)
    (m : gmap Z pending_command) (c : pending_command) :
  m !! id = Some c ->
  pc_agent_id c = agent_id ->
  pc_executed_at c = None ->
  pc_executed_at <$> set_executed_rows now id agent_id m !! id = Some (Some now).
Proof.
  intros Hc Ha _. rewrite (set_executed_rows_hit now id agent_id m c Hc Ha).
  by rewrite lookup_insert_eq.
Qed.

End CommandQueue.

(** ** Switch ledger *)

Section SwitchLedger.
Import Store Api.

Variable client_id : Z.
Variable agent_id : string.
Variable data : switch_payload.

Let o := o_instance_id (old_inst data).
Let n := n_instance_id (new_inst data).
Let t := old_instance_terminated_at (timing data).

(** The effect of a report none of whose statements fails. *)
Lemma switch_report_ok (d : db) :
  switch_report no_faults client_id agent_id data d
  = (Json tt,
     set_system_events
       (fun l => l ++ [{| sy_event_type := "switch_completed"; sy_severity := "info" |}])
       ((if gtb (savings_impact data) 0
         then add_savings client_id (savings_impact data * 24)
         else fun d => d)
          (upsert_new client_id agent_id data
             (deactivate_old client_id data
                (insert_event client_id agent_id data d))))).
Proof.
  unfold switch_report, handle, switch_report_try, mbind, io_bind, execute_query.
  simpl. destruct (gtb (savings_impact data) 0); reflexivity.
Qed.

Lemma switch_report_instances (d : db) :
  instances (switch_report no_faults client_id agent_id data d).2
  = upsert_new_rows client_id agent_id data
      (deactivate_old_rows client_id data (instances d)).
Proof.
  rewrite switch_report_ok. simpl.
  destruct (gtb (savings_impact data) 0); reflexivity.
Qed.

Lemma switch_report_events (d : db) :
  switch_events (switch_report no_faults client_id agent_id data d).2
  = switch_events d ++ [event_row client_id agent_id data].
Proof.
  rewrite switch_report_ok. simpl.
  destruct (gtb (savings_impact data) 0); reflexivity.
Qed.

Lemma switch_report_clients (d : db) :
  clients (switch_report no_faults client_id agent_id data d).2
  = if gtb (savings_impact data) 0
    then add_savings_rows client_id (savings_impact data * 24) (clients d)
    else clients d.
Proof.
  rewrite switch_report_ok. simpl.
  destruct (gtb (savings_impact data) 0); reflexivity.
Qed.

(** *** The two statements on [instances] *)

(** A row the upsert has written carries the report's values: it is a
    fixed point of [refresh_row]. *)
Lemma refresh_row_refreshed (r : instance_row) :
  refresh_row data (refresh_row data r) = refresh_row data r.
Proof. reflexivity. Qed.

Lemma fresh_row_refreshed :
  refresh_row data (fresh_row client_id agent_id data) = fresh_row client_id agent_id data.
Proof. reflexivity. Qed.

Lemma terminate_terminate (r : instance_row) :
  terminate t (terminate t r) = terminate t r.
Proof. reflexivity. Qed.

Lemma refresh_terminate (r : instance_row) :
  refresh_row data r = r -> i_terminated_at r = t -> refresh_row data (terminate t r) = r.
Proof.
  intros Hfix Ht. rewrite <- Hfix at 2.
  destruct r; simpl in *. subst. reflexivity.
Qed.

Lemma upsert_lookup (m : gmap string instance_row) :
  exists r, upsert_new_rows client_id agent_id data m !! n = Some r /\
            refresh_row data r = r /\
            (match m !! n with
             | Some r0 => i_client_id r = i_client_id r0 /\
                          i_terminated_at r = i_terminated_at r0
             | None => r = fresh_row client_id agent_id data
             end).
Proof.
  unfold upsert_new_rows. fold n. destruct (m !! n) as [r0|] eqn:E.
  - exists (refresh_row data r0). rewrite lookup_insert_eq.
    repeat split.
  - exists (fresh_row client_id agent_id data). rewrite lookup_insert_eq.
    repeat split.
Qed.

Lemma upsert_fixed (m : gmap string instance_row) (r : instance_row) :
  m !! n = Some r -> refresh_row data r = r ->
  upsert_new_rows client_id agent_id data m = m.
Proof.
  intros Hr Hfix. unfold upsert_new_rows. fold n. rewrite Hr, Hfix.
  by apply insert_id.
Qed.

Lemma upsert_lookup_ne (m : gmap string instance_row) (k : string) :
  k <> n -> upsert_new_rows client_id agent_id data m !! k = m !! k.
Proof.
  intros Hne. unfold upsert_new_rows. fold n.
  destruct (m !! n); by rewrite lookup_insert_ne.
Qed.

(** The instance table after one report is a fixed point of the two
    statements, unless old and new instance are the same one, that
    instance had no row, and a termination time is reported. *)
Lemma instances_replay (m : gmap string instance_row) :
  o <> n \/ is_Some (m !! n) \/ t = None ->
  let m1 := upsert_new_rows client_id agent_id data (deactivate_old_rows client_id data m) in
  upsert_new_rows client_id agent_id data (deactivate_old_rows client_id data m1) = m1.
Proof.
  intros Hcase m1.
  destruct (upsert_lookup (deactivate_old_rows client_id data m)) as (x & Hx & Hfix & Hfrom).
  fold m1 in Hx.
  destruct (decide (o = n)) as [Heq | Hne].
  - (* the old instance is the new one *)
    unfold deactivate_old_rows at 1. fold o. rewrite Heq, Hx.
    destruct (bool_decide (i_client_id x = client_id)) eqn:Hc;
      [|by apply (upsert_fixed m1 x)].
    assert (Ht : i_terminated_at x = t).
    { revert Hfrom. unfold deactivate_old_rows. fold o t. rewrite Heq.
      destruct (m !! n) as [r0|] eqn:E.
      - destruct (bool_decide (i_client_id r0 = client_id)) eqn:Hc0.
        + rewrite lookup_insert_eq. intros [_ ->]. reflexivity.
        + rewrite E. intros [Hcl _]. rewrite Hcl, Hc0 in Hc. discriminate Hc.
      - rewrite E. intros ->. simpl.
        destruct Hcase as [Hon | [[r Hr] | Hnone]];
          [ contradiction
          | discriminate Hr
          | exact (eq_sym Hnone) ]. }
    unfold upsert_new_rows. fold n t. rewrite lookup_insert_eq.
    rewrite (refresh_terminate x Hfix Ht), insert_insert_eq.
    by apply insert_id.
  - (* two instances *)
    assert (Hd : deactivate_old_rows client_id data m1 = m1).
    { unfold deactivate_old_rows at 1. fold o t.
      unfold m1. rewrite (upsert_lookup_ne _ o Hne). fold m1.
      unfold deactivate_old_rows. fold o t.
      destruct (m !! o) as [r0|] eqn:E.
      - destruct (bool_decide (i_client_id r0 = client_id)) eqn:Hc0.
        + rewrite lookup_insert_eq. simpl. rewrite Hc0.
          apply insert_id. unfold m1. rewrite (upsert_lookup_ne _ o Hne).
          unfold deactivate_old_rows. fold o t. rewrite E, Hc0.
          by rewrite lookup_insert_eq.
        + rewrite E, Hc0. reflexivity.
      - rewrite E. reflexivity. }
    rewrite Hd. by apply (upsert_fixed m1 x).
Qed.

(** C3, as the code does it.  Applying one switch report a second time
    leaves the Instance table as after the first time, provided the old
    and the new instance differ, or the new instance had a row before,
    or no termination time is reported.  The ledger is not idempotent:
    the second application appends the event once more; and when
    savings_impact is positive, the client's savings total is raised by
    24 times the impact once more. *)
Theorem C3_replay_converges_on_instances_only (d : db) :
  let once := (switch_report no_faults client_id agent_id data d).2 in
  let twice := (switch_report no_faults client_id agent_id data once).2 in
  (o <> n \/ is_Some (instances d !! n) \/ t = None -> instances twice = instances once)
  /\ switch_events twice = switch_events once ++ [event_row client_id agent_id data]
  /\ clients twice
     = if gtb (savings_impact data) 0
       then add_savings_rows client_id (savings_impact data * 24) (clients once)
       else clients once.
Proof.
  intros once twice. split; [|split].
  - intros Hcase. unfold twice, once.
    rewrite !switch_report_instances. by apply instances_replay.
  - unfold twice. by rewrite switch_report_events.
  - unfold twice. by rewrite switch_report_clients.
Qed.

End SwitchLedger.

Section SwitchLedgerExamples.
Import Store Api.

Lemma C3_replay_converges_on_instances_only_witness :
  instances replayed_switch = instances after_one_switch
  /\ switch_events replayed_switch
     = switch_events after_one_switch
         ++ [event_row 1 "agent-1" (move "i-old" "i-new" (sec 1000000))]
  /\ clients replayed_switch
     = add_savings_rows 1 (savings_impact (move "i-old" "i-new" (sec 1000000)) * 24)
         (clients after_one_switch).
Proof.
  destruct (C3_replay_converges_on_instances_only 1 "agent-1"
              (move "i-old" "i-new" (sec 1000000)) base_db) as (Hinst & Hevents & Hclients).
  split; [|split].
  - apply Hinst. left. discriminate.
  - exact Hevents.
  - exact Hclients.
Defined.

(** C3, counterexample: the report of the switch from i-old to i-new,
    with old spot price 0.5 and new spot price 0.3, is applied to a
    database with an empty ledger and a savings total of 0.  After one
    application the ledger holds one event and the total is 4.8; after
    the second the ledger holds two events and the total is 9.6. *)
Lemma C3_replay_appends_and_credits_again :
  length (switch_events after_one_switch) = 1%nat
  /\ length (switch_events replayed_switch) = 2%nat
  /\ switch_events replayed_switch <> switch_events after_one_switch
  /\ exists c1 c2,
       clients after_one_switch !! 1%Z = Some c1 /\
       clients replayed_switch !! 1%Z = Some c2 /\
       total_savings c1 == 48 # 10 /\
       total_savings c2 == 96 # 10 /\
       ~ total_savings c2 == total_savings c1.
Proof.
  split; [reflexivity|]. split; [reflexivity|]. split.
  - intros H. apply (f_equal length) in H. vm_compute in H. discriminate H.
  - eexists _, _. split; [reflexivity|]. split; [reflexivity|].
    split; [reflexivity|]. split; [reflexivity|].
    intros H. vm_compute in H. discriminate H.
Qed.

(** The case left out of the instance-table convergence: old and new
    instance are the same, it has no row yet, and a termination time is
    reported.  The first application inserts the row with no
    termination time, the second stamps it. *)
Example replay_on_same_instance :
  let once := (switch_report no_faults 1 "agent-1" (move "i-x" "i-x" (sec 1000000)) base_db).2 in
  let twice := (switch_report no_faults 1 "agent-1" (move "i-x" "i-x" (sec 1000000)) once).2 in
  (i_terminated_at <$> instances once !! "i-x") = Some None /\
  (i_terminated_at <$> instances twice !! "i-x") = Some (Some (sec 1000000)).
Proof. split; reflexivity. Qed.

End SwitchLedgerExamples.

(** ** Persistence failures *)

Section PersistenceFailure.
Import Store Api.

Variable client_id : Z.
Variable agent_id : string.
Variable data : switch_payload.
Variable d : db.

(** C5, as the code does it.  Each statement of a switch report is
    committed on its own.  When the connector fails in one statement,
    the request answers 500 and that statement and the later ones have
    no effect, but every earlier statement stays committed: a failure
    in the first statement leaves the tables as before the request, a
    failure in the second leaves the event appended, a failure in the
    third leaves the event appended and the old instance deactivated,
    and a failure in the savings update (run only when savings_impact
    is positive) leaves all but the savings applied. *)
Theorem C5_failed_statement_keeps_earlier_commits :
  let failing k := switch_report (fault_at k) client_id agent_id data d in
  let s1 := insert_event client_id agent_id data d in
  let s2 := deactivate_old client_id data s1 in
  let s3 := upsert_new client_id agent_id data s2 in
  ((failing 0%nat).1 = Error500 DatabaseError /\ core (failing 0%nat).2 = core d)
  /\ ((failing 1%nat).1 = Error500 DatabaseError /\ core (failing 1%nat).2 = core s1)
  /\ ((failing 2%nat).1 = Error500 DatabaseError /\ core (failing 2%nat).2 = core s2)
  /\ (if gtb (savings_impact data) 0
      then (failing 3%nat).1 = Error500 DatabaseError /\ core (failing 3%nat).2 = core s3
      else (failing 3%nat).1 = Json tt /\ core (failing 3%nat).2 = core s3).
Proof.
  simpl.
  unfold switch_report, handle, switch_report_try, mbind, io_bind, execute_query.
  simpl.
  repeat split; destruct (gtb (savings_impact data) 0); repeat split.
Qed.

End PersistenceFailure.

Section PersistenceFailureExamples.
Import Store Api.

(** C5, counterexample: the connector fails in the second statement of a
    switch report (the update of the old instance).  The request answers
    500, and the ledger, empty before the request, holds the event. *)
Lemma C5_failed_report_keeps_event :
  exists d',
    switch_report (fault_at 1) 1 "agent-1" (move "i-old" "i-new" (sec 1000000)) base_db
      = (Error500 DatabaseError, d') /\
    switch_events base_db = [] /\
    switch_events d' = [event_row 1 "agent-1" (move "i-old" "i-new" (sec 1000000))] /\
    core d' <> core base_db.
Proof.
  eexists. split; [reflexivity|]. split; [reflexivity|]. split; [reflexivity|].
  intros H. apply (f_equal (fun c => length c.1.1.2)) in H.
  vm_compute in H. discriminate H.
Qed.

(** Retrying the request that failed in its second statement appends the
    event a second time. *)
Example retry_after_failure_duplicates_event :
  let failed :=
    (switch_report (fault_at 1) 1 "agent-1" (move "i-old" "i-new" (sec 1000000)) base_db).2 in
  let retried :=
    (switch_report no_faults 1 "agent-1" (move "i-old" "i-new" (sec 1000000)) failed).2 in
  length (switch_events retried) = 2%nat.
Proof. reflexivity. Qed.

End PersistenceFailureExamples.

(** * Further properties of the handlers *)

(** ** Risk scorer: range, escalation and guards *)

Section RiskScorerMore.
Import Risk Api.

Lemma geb_le (a b : Q) : geb a b = true <-> b <= a.
Proof. unfold geb. apply Qle_bool_iff. Qed.

Lemma elevated_score (self : ModelManager) (pool : string) (cp : option number)
    (cd : Q) (od : number) (score : Q) (state : risk_state) (why : reason) :
  get_risk_score self pool cp cd od = Ok (score, state, why) ->
  is_event_or_high_risk state = true ->
  6 # 10 <= score.
Proof.
  unfold get_risk_score.
  destruct (loaded self); simpl; [|intros [= <- <- <-]; discriminate].
  destruct (pool_contexts self !! pool) as [context|];
    [|intros [= <- <- <-]; discriminate].
  destruct (price_ratio cp od) as [ratio|e]; simpl; [|discriminate].
  unfold classify.
  repeat (match goal with |- context [if ?b then _ else _] => destruct b end);
    intros [= <- <- <-]; simpl; intros H; try discriminate H; vm_compute; discriminate.
Qed.

(** Every score the scorer returns lies in [0, 1]; the states high-risk
    and event are exactly those scored 0.6 or more, and event is
    exactly the score 0.9. *)
Theorem risk_score_range (self : ModelManager) (pool : string) (cp : option number)
    (cd : Q) (od : number) (score : Q) (state : risk_state) (why : reason) :
  get_risk_score self pool cp cd od = Ok (score, state, why) ->
  0 <= score /\ score <= 1 /\
  (is_event_or_high_risk state = true <-> 6 # 10 <= score) /\
  (state = Event <-> score == 9 # 10).
Proof.
  unfold get_risk_score.
  assert (Hleaf : forall s st,
             (s, st) = (5 # 10, Normal) \/ (s, st) = (9 # 10, Event) \/
             (s, st) = (8 # 10, HighRisk) \/ (s, st) = (6 # 10, HighRisk) \/
             (s, st) = (2 # 10, SafeToReturn) \/ (s, st) = (3 # 10, Normal) ->
             0 <= s /\ s <= 1 /\
             (is_event_or_high_risk st = true <-> 6 # 10 <= s) /\
             (st = Event <-> s == 9 # 10)).
  { intros s st Hs.
    destruct Hs as [H | [H | [H | [H | [H | H]]]]]; injection H as -> ->;
      (split; [vm_compute; discriminate |
       split; [vm_compute; discriminate | split; split]]);
      simpl; intros H; try reflexivity; try discriminate H;
      try (exfalso; vm_compute in H; apply H; reflexivity);
      try (vm_compute; discriminate). }
  destruct (loaded self); simpl.
  2: { intros [= <- <- <-]. apply Hleaf. auto. }
  destruct (pool_contexts self !! pool) as [context|].
  2: { intros [= <- <- <-]. apply Hleaf. auto. }
  destruct (price_ratio cp od) as [ratio|e]; simpl; [|discriminate].
  unfold classify.
  repeat (match goal with |- context [if ?b then _ else _] => destruct b end);
    intros [= <- <- <-]; apply Hleaf; auto 10.
Qed.

Lemma risk_score_range_witness :
  0 <= 8 # 10 /\ 8 # 10 <= 1 /\
  (is_event_or_high_risk HighRisk = true <-> 6 # 10 <= 8 # 10) /\
  (HighRisk = Event <-> 8 # 10 == 9 # 10).
Proof.
  apply (risk_score_range (scenario_manager (3 # 10) (5 # 10)) "pool-a"
           (Some (PyFloat (95 # 100))) 0 (PyFloat 1) (8 # 10) HighRisk
           (AboveP92 ((95 # 100) / 1) (9 # 10))).
  reflexivity.
Defined.

Lemma Qeq_bool_positive (y : Q) : 0 < y -> Qeq_bool y 0 = false.
Proof.
  intros Hy. destruct (Qeq_bool y 0) eqn:E; [|reflexivity].
  apply Qeq_bool_iff in E. rewrite E in Hy. by apply Qlt_irrefl in Hy.
Qed.

Lemma truediv_cases (a b : number) :
  0 < value b ->
  truediv a b = Ok (value a / value b) \/ truediv a b = Raise OverflowError.
Proof.
  intros Hb.
  pose proof (Qeq_bool_positive _ Hb) as Hnz.
  destruct a as [m|x], b as [n|y]; simpl in *.
  - destruct (n =? 0)%Z eqn:En.
    + apply Z.eqb_eq in En. subst n. by apply Qlt_irrefl in Hb.
    + destruct (Qle_bool _ _); auto.
  - destruct (Z.abs m <? float_overflow)%Z; simpl; [|auto].
    rewrite Hnz. auto.
  - destruct (Z.abs n <? float_overflow)%Z; simpl; [|auto].
    rewrite Hnz. auto.
  - rewrite Hnz. auto.
Qed.



(** An integer price beyond the range of a float: the scorer raises. *)
Example risk_score_overflow :
  get_risk_score (scenario_manager (3 # 10) (5 # 10)) "pool-a"
    (Some (PyInt (10 ^ 400))) 0 (PyInt 1) = Raise OverflowError.
Proof. vm_compute. reflexivity. Qed.

(** The division guard: with an on-demand price that is not positive the
    scorer does not divide; whatever the current price is, even null, it
    returns what it returns for a price equal to the on-demand price
    (ratio 1.0). *)
Theorem risk_score_without_on_demand_price (self : ModelManager) (pool : string)
    (cp : option number) (cd : Q) (od : number) :
  value od <= 0 ->
  get_risk_score self pool cp cd od
    = get_risk_score self pool (Some (PyFloat 1)) cd (PyFloat 1) /\
  exists s, get_risk_score self pool cp cd od = Ok s.
Proof.
  intros Hod. unfold get_risk_score, price_ratio.
  assert (Hgt : gtb (value od) 0 = false) by (by apply gtb_le).
  rewrite Hgt. simpl.
  destruct (loaded self); simpl; [|eauto].
  destruct (pool_contexts self !! pool); eauto.
Qed.

Lemma risk_score_without_on_demand_price_witness :
  get_risk_score (scenario_manager (3 # 10) (5 # 10)) "pool-a" None 0 (PyInt 0)
    = get_risk_score (scenario_manager (3 # 10) (5 # 10)) "pool-a"
        (Some (PyFloat 1)) 0 (PyFloat 1) /\
  exists s,
    get_risk_score (scenario_manager (3 # 10) (5 # 10)) "pool-a" None 0 (PyInt 0) = Ok s.
Proof.
  apply (risk_score_without_on_demand_price (scenario_manager (3 # 10) (5 # 10)) "pool-a"
           None 0 (PyInt 0)).
  discriminate.
Defined.

End RiskScorerMore.

(** ** Decision engine: the cheapest pool *)

Section CheapestPool.
Import Api.

Lemma min_from_split (rest before mid : list spot_pool) (best b : spot_pool) :
  (forall p, p ∈ before -> below best p) ->
  (forall p, p ∈ mid -> not_above best p) ->
  min_from best (price best) rest = Ok b ->
  exists before' after',
    before ++ best :: mid ++ rest = before' ++ b :: after' /\
    (forall p, p ∈ before' -> below b p) /\
    (forall p, p ∈ after' -> not_above b p).
Proof.
  revert before mid best.
  induction rest as [|p rest IH]; intros before mid best Hbefore Hmid; simpl.
  - intros [= <-]. exists before, mid. rewrite app_nil_r. auto.
  - destruct (price p) as [q|] eqn:Hq; simpl; [|discriminate].
    destruct (price best) as [bq|] eqn:Hbq; simpl; [|discriminate].
    destruct (ltb (value q) (value bq)) eqn:Hlt.
    + apply ltb_lt in Hlt. rewrite <- Hq. intros Hmin.
      destruct (IH (before ++ best :: mid) [] p) as (before' & after' & Heq & H1 & H2);
        try assumption.
      * intros x Hx. apply elem_of_app in Hx as [Hx | Hx].
        -- destruct (Hbefore x Hx) as (b0 & xq & Hb0 & Hxq & Hlt').
           rewrite Hbq in Hb0. injection Hb0 as <-.
           exists q, xq. repeat split; try assumption.
           eapply Qlt_trans; eassumption.
        -- apply elem_of_cons in Hx as [-> | Hx].
           ++ exists q, bq. auto.
           ++ destruct (Hmid x Hx) as (b0 & xq & Hb0 & Hxq & Hle).
              rewrite Hbq in Hb0. injection Hb0 as <-.
              exists q, xq. repeat split; try assumption.
              eapply Qlt_le_trans; eassumption.
      * intros x Hx. by apply elem_of_nil in Hx.
      * exists before', after'. split; [|auto].
        rewrite <- Heq. simpl. rewrite <- !app_assoc. simpl. reflexivity.
    + apply ltb_ge in Hlt. rewrite <- Hbq. intros Hmin.
      destruct (IH before (mid ++ [p]) best) as (before' & after' & Heq & H1 & H2);
        try assumption.
      * intros x Hx. apply elem_of_app in Hx as [Hx | Hx]; [auto|].
        apply list_elem_of_singleton in Hx as ->. exists bq, q. auto.
      * exists before', after'. split; [|auto].
        rewrite <- Heq. rewrite <- !app_assoc. simpl. reflexivity.
Qed.



(** On an empty snapshot [min] raises; a null price raises as soon as
    it has to be compared, and is returned when it is alone. *)
Example min_by_price_edges :
  min_by_price [] = Raise ValueError /\
  min_by_price [pool_a; {| pool_id := "pool-x"; price := None |}] = Raise TypeError /\
  min_by_price [{| pool_id := "pool-x"; price := None |}]
    = Ok {| pool_id := "pool-x"; price := None |}.
Proof. repeat split. Qed.

End CheapestPool.

(** ** Decision engine: what each action means *)

Section Actions.
Import Risk Store Api.

Lemma Qeq_bool_false (a b : Q) : Qeq_bool a b = false -> ~ a == b.
Proof. intros H E. apply Qeq_bool_iff in E. congruence. Qed.

Lemma to_float_value (a : number) (x : Q) : to_float a = Ok x -> x = value a.
Proof.
  destruct a as [n|q]; simpl.
  - destruct (Z.abs n <? float_overflow)%Z; [|discriminate]. by intros [= <-].
  - by intros [= <-].
Qed.

(** The value of a difference is the difference of the values. *)
Lemma value_sub (a b c : number) : sub a b = Ok c -> value c = value a - value b.
Proof.
  assert (Hfloat : (x ← to_float a; y ← to_float b; Ok (PyFloat (x - y))) = Ok c ->
                   value c = value a - value b).
  { destruct (to_float a) as [x|e] eqn:Ha; simpl; [|discriminate].
    destruct (to_float b) as [y|e] eqn:Hb; simpl; [|discriminate].
    intros [= <-]. simpl.
    by rewrite (to_float_value _ _ Ha), (to_float_value _ _ Hb). }
  destruct a as [m|x], b as [n|y]; try exact Hfloat.
  simpl. intros [= <-]. simpl.
  unfold Qminus, Qplus, Qopp, inject_Z. simpl. f_equal. lia.
Qed.

Lemma value_neg (a : number) : value (neg a) = - value a.
Proof. destruct a; reflexivity. Qed.

(** A quotient that is returned is the quotient of the values, by a
    divisor that is not zero. *)
Lemma truediv_Ok (a b : number) (r : Q) :
  truediv a b = Ok r -> r = value a / value b /\ ~ value b == 0.
Proof.
  assert (Hfloat : (x ← to_float a; y ← to_float b;
                    if Qeq_bool y 0 then Raise ZeroDivisionError else Ok (x / y)) = Ok r ->
                   r = value a / value b /\ ~ value b == 0).
  { destruct (to_float a) as [x|e] eqn:Ha; simpl; [|discriminate].
    destruct (to_float b) as [y|e] eqn:Hb; simpl; [|discriminate].
    destruct (Qeq_bool y 0) eqn:Hz; [discriminate|].
    intros [= <-].
    rewrite <- (to_float_value _ _ Ha), <- (to_float_value _ _ Hb).
    split; [reflexivity | by apply Qeq_bool_false]. }
  destruct a as [m|x], b as [n|y]; try exact Hfloat.
  simpl. destruct (n =? 0)%Z eqn:En; [discriminate|].
  destruct (Qle_bool _ _); [discriminate|].
  intros [= <-]. split; [reflexivity|].
  intros Hz. apply Z.eqb_neq in En. apply En.
  unfold Qeq in Hz. simpl in Hz. lia.
Qed.



(** With the models not loaded, without statistics for the resolved
    pool, or with a risk threshold above 0.9, no evaluation recommends
    the fallback to on-demand. *)
Theorem no_fallback_without_risk_signal (mm : ModelManager) (cfg : agent_config)
    (inst : instance_payload) (pricing : pricing_payload) (ev : evaluation) :
  loaded mm = false \/
  pool_contexts mm !!
    (resolve_current (spot_pools pricing) (default "unknown" (current_pool_id inst))).2
    = None \/
  9 # 10 < risk_threshold cfg ->
  evaluate mm cfg inst pricing = Ok ev ->
  ev_action ev <> FallbackOndemand.
Proof.
  intros Hcase. unfold evaluate. cbv zeta.
  destruct (resolve_current _ _) as [csp pool]. simpl in Hcase. simpl.
  destruct (if gtb (value (on_demand_price pricing)) 0 then _ else _) as [cd|e];
    simpl; [|discriminate].
  destruct (get_risk_score mm pool csp cd (on_demand_price pricing))
    as [[[score state] why]|e] eqn:Hscore; simpl; [|discriminate].
  assert (Hno : is_event_or_high_risk state && geb score (risk_threshold cfg) = false).
  { destruct Hcase as [Hl | [Hc | Hthr]].
    - unfold get_risk_score in Hscore. rewrite Hl in Hscore. simpl in Hscore.
      injection Hscore as <- <- <-. reflexivity.
    - unfold get_risk_score in Hscore. rewrite Hc in Hscore.
      destruct (loaded mm); simpl in Hscore; injection Hscore as <- <- <-; reflexivity.
    - destruct (is_event_or_high_risk state); [|reflexivity]. simpl.
      destruct (geb score (risk_threshold cfg)) eqn:Hg; [|reflexivity].
      apply geb_le in Hg.
      assert (Hmax : score <= 9 # 10).
      { unfold get_risk_score in Hscore.
        destruct (loaded mm); simpl in Hscore; [|injection Hscore as <- _ _; discriminate].
        destruct (pool_contexts mm !! pool); [|injection Hscore as <- _ _; discriminate].
        destruct (price_ratio csp (on_demand_price pricing)); simpl in Hscore;
          [|discriminate].
        unfold classify in Hscore.
        repeat (match type of Hscore with
                | context [if ?b then _ else _] => destruct b
                end); injection Hscore as <- _ _; discriminate. }
      exfalso. apply (Qlt_not_le _ _ Hthr). eapply Qle_trans; eassumption. }
  rewrite Hno.
  repeat (match goal with
          | |- context [if ?b then _ else _] => destruct b
          | |- context [mbind _ ?r] => destruct r; simpl
          end; simpl);
    try discriminate; intros [= <-]; simpl; discriminate.
Qed.

Lemma no_fallback_without_risk_signal_witness :
  ev_action {| ev_risk_score := 5 # 10; ev_action := SwitchPool; ev_mode := "spot";
               ev_pool_id := "pool-b"; ev_expected_savings := (5 # 10) - (3 # 10);
               ev_reason := BetterPool "pool-b" (((5 # 10) - (3 # 10)) / 1 * 100) |}
    <> FallbackOndemand.
Proof.
  apply (no_fallback_without_risk_signal
           {| loaded := false; pool_contexts := ∅;
              config := {| ratio_spike_threshold := 3 # 10;
                           ratio_absolute_high := 95 # 100;
                           ratio_safe_return := 5 # 10 |} |}
           policy (on_spot "i-1") snapshot_ab).
  - left. reflexivity.
  - reflexivity.
Defined.

End Actions.

(** ** Decision engine: what a decide call may write *)

Section DecideWrites.
Import Risk Store Api.

Variable mm : ModelManager.
Variable f : faults.
Variables utcnow db_now client_id : Z.
Variable agent_id : string.
Variable instance : instance_payload.
Variable pricing : pricing_payload.
Variable d : db.

(** Rounding to the nearest integer moves a number by a half at most. *)
Lemma round_half_even_near (x : Q) :
  Qabs (inject_Z (round_half_even x) - x) <= 1 # 2.
Proof.
  unfold round_half_even. cbv zeta.
  pose proof (Qfloor_le x) as Hlo.
  pose proof (Qlt_floor x) as Hhi.
  rewrite inject_Z_plus in Hhi. change (inject_Z 1) with 1 in Hhi.
  apply Qabs_Qle_condition.
  destruct (Qcompare (x - inject_Z (Qfloor x)) (1 # 2)) eqn:E.
  - apply Qeq_alt in E.
    destruct (Z.even (Qfloor x)).
    + split; lra.
    + rewrite inject_Z_plus. change (inject_Z 1) with 1. split; lra.
  - apply Qlt_alt in E. split; lra.
  - apply Qgt_alt in E. rewrite inject_Z_plus. change (inject_Z 1) with 1. split; lra.
Qed.

(** Rounding to 6 decimals moves a number by half a millionth at most. *)
Lemma round_6_near (x : Q) : Qabs (round x 6 - x) <= 1 # 2000000.
Proof.
  unfold round. rewrite Qred_correct.
  pose proof (round_half_even_near (x * inject_Z (10 ^ Z.of_nat 6))) as H.
  change (inject_Z (10 ^ Z.of_nat 6)) with (1000000 # 1) in *.
  set (k := inject_Z (round_half_even (x * (1000000 # 1)))) in *.
  apply Qabs_Qle_condition in H. apply Qabs_Qle_condition.
  assert (E : k / (1000000 # 1) == k * (1 # 1000000)) by (unfold Qdiv; reflexivity).
  rewrite E. split; lra.
Qed.

(** The scores of the scorer have one decimal: rounding to 4 decimals
    keeps them. *)
Lemma get_risk_score_rounded (self : ModelManager) (pool : string) (cp : option number)
    (cd : Q) (od : number) (score : Q) (state : risk_state) (why : reason) :
  get_risk_score self pool cp cd od = Ok (score, state, why) ->
  round score 4 == score.
Proof.
  unfold get_risk_score.
  destruct (loaded self); simpl; [|intros [= <- <- <-]; reflexivity].
  destruct (pool_contexts self !! pool) as [context|];
    [|intros [= <- <- <-]; reflexivity].
  destruct (price_ratio cp od) as [ratio|e]; simpl; [|discriminate].
  unfold classify.
  repeat (match goal with |- context [if ?b then _ else _] => destruct b end);
    intros [= <- <- <-]; reflexivity.
Qed.

Lemma evaluate_score_rounded (cfg : agent_config) (ev : evaluation) :
  evaluate mm cfg instance pricing = Ok ev ->
  round (ev_risk_score ev) 4 == ev_risk_score ev.
Proof.
  unfold evaluate.
  destruct (resolve_current _ _) as [csp pool].
  destruct (if gtb (value (on_demand_price pricing)) 0 then _ else _) as [cd|e];
    simpl; [|discriminate].
  destruct (get_risk_score mm pool csp cd (on_demand_price pricing))
    as [[[score state] why]|e] eqn:Hscore; simpl; [|discriminate].
  apply get_risk_score_rounded in Hscore.
  repeat (match goal with
          | |- context [if ?b then _ else _] => destruct b
          | |- context [mbind _ ?r] => destruct r; simpl
          end; simpl);
    try discriminate; intros [= <-]; exact Hscore.
Qed.

Local Ltac run_decide :=
  unfold get_decision, handle, get_decision_try, mbind, io_bind, execute_query,
    lift, mret, io_ret, log_system_event, blocked;
  destruct (current_mode instance) as [mode|];
  destruct (f 0%nat); simpl; try (repeat split; discriminate);
  destruct (select_config agent_id client_id d) as [cfg|]; simpl;
    try (repeat split; discriminate);
  try (destruct (enabled cfg); simpl; try (repeat split; discriminate);
       destruct (f 1%nat); simpl; try (repeat split; discriminate);
       destruct (rate_gate (count_recent_switches agent_id db_now d) cfg); simpl;
         try (repeat split; discriminate);
       destruct (f 2%nat); simpl; try (repeat split; discriminate);
       destruct (dwell_gate utcnow (select_last_switch (instance_id instance) d) cfg);
         simpl; try (repeat split; discriminate);
       destruct (evaluate mm cfg instance pricing) as [ev|e] eqn:Hev; simpl;
         try (repeat split; discriminate);
       destruct (f 3%nat); simpl; try (repeat split; discriminate)).

(** A decide call is advisory: whatever the input and whichever
    statements fail, it leaves the policies, the instances, the clients'
    totals, the switch ledger and the command queue as they were; it
    never enqueues a command. *)
Theorem get_decision_is_advisory :
  let d' := (get_decision mm f utcnow db_now client_id agent_id instance pricing d).2 in
  agent_configs d' = agent_configs d /\
  instances d' = instances d /\
  clients d' = clients d /\
  switch_events d' = switch_events d /\
  pending_switch_commands d' = pending_switch_commands d.
Proof.
  run_decide; repeat split.
Qed.

(** Answers and audit trail agree, whichever statements fail.  A decide
    call that answers 500 leaves no audit row.  A call that answers 200
    either answers for a gate and leaves the database untouched, or has
    appended exactly one audit row, which records the action, mode,
    pool, allowed flag and reason of the answer.  The answer carries
    the row's score rounded to 4 decimals, which is the row's score, and
    the row's expected savings rounded to 6 decimals, at most half a
    millionth away from them. *)
Theorem get_decision_audit_agrees :
  let run := get_decision mm f utcnow db_now client_id agent_id instance pricing d in
  (forall e, run.1 = Error500 e -> risk_scores run.2 = risk_scores d) /\
  (forall body, run.1 = Json body ->
     (gate_reason (d_reason body) = true /\ run.2 = d) \/
     (exists row,
        risk_scores run.2 = risk_scores d ++ [row] /\
        d_risk_score body = round (rs_risk_score row) 4 /\
        d_risk_score body == rs_risk_score row /\
        rs_recommended_action row = d_recommended_action body /\
        rs_recommended_mode row = d_recommended_mode body /\
        Some (rs_recommended_pool_id row) = d_recommended_pool_id body /\
        d_expected_savings_per_hour body = round (rs_expected_savings_per_hour row) 6 /\
        Qabs (d_expected_savings_per_hour body - rs_expected_savings_per_hour row)
          <= 1 # 2000000 /\
        rs_allowed row = d_allowed body /\
        rs_reason row = d_reason body)).
Proof.
  run_decide;
    (split; [try reflexivity; try discriminate; intros; reflexivity|]);
    intros body Hbody; try discriminate Hbody; injection Hbody as <-;
    try (left; split; reflexivity).
  all: right; eexists; split; [reflexivity|]; cbn [audit_row decided
         rs_risk_score d_risk_score rs_recommended_action d_recommended_action
         rs_recommended_mode d_recommended_mode rs_recommended_pool_id
         d_recommended_pool_id rs_expected_savings_per_hour
         d_expected_savings_per_hour rs_allowed d_allowed rs_reason d_reason].
  all: split; [reflexivity|]; split; [eapply evaluate_score_rounded; eassumption|].
  all: do 4 (split; [reflexivity|]).
  all: split; [apply round_6_near|]; split; reflexivity.
Qed.

End DecideWrites.

(** ** Switch ledger: what a report may change *)

Section ReportWrites.
Import Store Api.

Variable f : faults.
Variable client_id : Z.
Variable agent_id : string.
Variable data : switch_payload.
Variable d : db.

Lemma switch_report_clients_any :
  let d' := (switch_report f client_id agent_id data d).2 in
  clients d' = clients d \/
  (0 < savings_impact data /\
   clients d' = add_savings_rows client_id (savings_impact data * 24) (clients d)).
Proof.
  unfold switch_report, handle, switch_report_try, mbind, io_bind, execute_query,
    log_system_event, mret, io_ret.
  destruct (f 0%nat); simpl; [auto|].
  destruct (f 1%nat); simpl; [auto|].
  destruct (f 2%nat); simpl; [auto|].
  destruct (gtb (savings_impact data) 0) eqn:G; simpl; [|auto].
  apply gtb_gt in G.
  destruct (f 3%nat); simpl; auto.
Qed.

Lemma switch_report_instances_any :
  let d' := (switch_report f client_id agent_id data d).2 in
  let m1 := deactivate_old_rows client_id data (instances d) in
  instances d' = instances d \/
  instances d' = m1 \/
  instances d' = upsert_new_rows client_id agent_id data m1.
Proof.
  unfold switch_report, handle, switch_report_try, mbind, io_bind, execute_query,
    log_system_event, mret, io_ret.
  destruct (f 0%nat); simpl; [auto|].
  destruct (f 1%nat); simpl; [auto|].
  destruct (f 2%nat); simpl; [auto|].
  destruct (gtb (savings_impact data) 0); simpl; [|auto].
  destruct (f 3%nat); simpl; auto.
Qed.

Lemma same_identity_refl (r : instance_row) : same_identity r r.
Proof. repeat split. Qed.

Lemma deactivate_keeps_identity (m : gmap string instance_row) (k : string)
    (r : instance_row) :
  m !! k = Some r ->
  exists r', deactivate_old_rows client_id data m !! k = Some r' /\ same_identity r r'.
Proof.
  intros Hk. unfold deactivate_old_rows.
  destruct (m !! o_instance_id (old_inst data)) as [r0|] eqn:E;
    [|eauto using same_identity_refl].
  destruct (bool_decide (i_client_id r0 = client_id));
    [|eauto using same_identity_refl].
  destruct (decide (o_instance_id (old_inst data) = k)) as [<- | Hne].
  - rewrite lookup_insert_eq. rewrite E in Hk. injection Hk as <-.
    eexists. split; [reflexivity|]. repeat split.
  - rewrite lookup_insert_ne by assumption. eauto using same_identity_refl.
Qed.

Lemma upsert_keeps_identity (m : gmap string instance_row) (k : string)
    (r : instance_row) :
  m !! k = Some r ->
  exists r', upsert_new_rows client_id agent_id data m !! k = Some r' /\ same_identity r r'.
Proof.
  intros Hk. unfold upsert_new_rows.
  destruct (decide (n_instance_id (new_inst data) = k)) as [<- | Hne].
  - rewrite Hk, lookup_insert_eq. eexists. split; [reflexivity|]. repeat split.
  - destruct (m !! n_instance_id (new_inst data));
      rewrite lookup_insert_ne by assumption; eauto using same_identity_refl.
Qed.

(** The savings total of a client never decreases and no client row
    appears or disappears, whichever statements of the report fail: a
    report changes at most the total of the reporting client, and then
    by adding 24 times a positive savings_impact; a negative impact is
    not subtracted. *)
Theorem savings_total_never_decreases (k : Z) :
  let d' := (switch_report f client_id agent_id data d).2 in
  (clients d !! k = None -> clients d' !! k = None) /\
  (forall x, clients d !! k = Some x ->
     exists y,
       clients d' !! k = Some y /\
       total_savings x <= total_savings y /\
       (k <> client_id -> y = x) /\
       (y = x \/
        (0 < savings_impact data /\
         total_savings y = total_savings x + savings_impact data * 24))).
Proof.
  cbv zeta.
  destruct switch_report_clients_any as [-> | [Hpos ->]].
  - split; [auto|]. intros x Hx. exists x.
    split; [assumption|]. split; [apply Qle_refl|]. auto.
  - unfold add_savings_rows. split.
    + intros Hk. rewrite lookup_alter. destruct (decide (client_id = k)) as [<- | Hne].
      * by rewrite Hk.
      * assumption.
    + intros x Hx. rewrite lookup_alter. destruct (decide (client_id = k)) as [<- | Hne].
      * rewrite Hx. simpl. eexists. split; [reflexivity|]. simpl.
        split; [|split; [congruence | right; auto]].
        rewrite <- (Qplus_0_r (total_savings x)) at 1.
        apply Qplus_le_r. apply Qlt_le_weak.
        apply Qmult_lt_0_compat; [assumption | reflexivity].
      * exists x. split; [assumption|]. split; [apply Qle_refl|]. auto.
Qed.

(** No report deletes an instance row or changes whose it is: every row
    present before the report is present after it with the same client,
    agent, type, region, zone, image, installation time and on-demand
    price baseline, whichever statements fail.  The upsert of the new
    instance rewrites mode, pool, spot price, activity and last switch
    time only, also on a row of another client. *)
Theorem switch_report_keeps_identity (k : string) (r : instance_row) :
  instances d !! k = Some r ->
  exists r',
    instances (switch_report f client_id agent_id data d).2 !! k = Some r' /\
    same_identity r r'.
Proof.
  intros Hk.
  destruct switch_report_instances_any as [-> | [-> | ->]].
  - eauto using same_identity_refl.
  - by apply deactivate_keeps_identity.
  - destruct (deactivate_keeps_identity _ _ _ Hk) as (r1 & H1 & (A1&A2&A3&A4&A5&A6&A7&A8)).
    destruct (upsert_keeps_identity _ _ _ H1) as (r2 & H2 & (B1&B2&B3&B4&B5&B6&B7&B8)).
    exists r2. split; [assumption|].
    repeat split; congruence.
Qed.

End ReportWrites.

Section ReportWritesExamples.
Import Store Api.

Lemma switch_report_keeps_identity_witness :
  exists r',
    instances (switch_report no_faults 1 "agent-1" (move "i-new" "i-newer" (sec 1090000))
                 after_one_switch).2 !! "i-new" = Some r' /\
    same_identity (fresh_row 1 "agent-1" (move "i-old" "i-new" (sec 1000000))) r'.
Proof.
  apply (switch_report_keeps_identity no_faults 1 "agent-1"
           (move "i-new" "i-newer" (sec 1090000)) after_one_switch "i-new").
  reflexivity.
Defined.

(** A report to on-demand that costs more than the spot price it leaves
    (old spot 0.5, on-demand 1, no new spot price) has a negative
    savings_impact and leaves the total alone. *)
Example costly_fallback_not_subtracted :
  let report :=
    {| old_inst := {| o_instance_id := "i-new"; o_mode := "spot"; o_pool_id := Some "pool-b" |};
       new_inst := {| n_instance_id := "i-od"; n_mode := "ondemand"; n_pool_id := None;
                      n_instance_type := "m5.large"; n_region := "ap-south-1";
                      n_az := "ap-south-1a"; n_ami_id := "ami-0abc" |};
       snapshot := {| used := false; snapshot_id := None |};
       prices := {| on_demand := 1; old_spot := 5 # 10; new_spot := None |};
       timing := {| traffic_switched_at := sec 1090000;
                    new_instance_ready_at := sec 1090000;
                    old_instance_terminated_at := None |};
       trigger := "model" |} in
  savings_impact report < 0 /\
  clients (switch_report no_faults 1 "agent-1" report after_one_switch).2
    = clients after_one_switch.
Proof. split; reflexivity. Qed.

End ReportWritesExamples.

(** ** Switch ledger: the instances after a report *)

Section ReportOutcome.
Import Store Api.

Variable client_id : Z.
Variable agent_id : string.
Variable data : switch_payload.
Variable d : db.

(** After a report none of whose statements fails: the new instance has
    a row that is active and carries the reported mode, pool, spot price
    (0 when none is reported) and switch time, also when old and new
    instance are the same; the old instance, when it is another one and
    a row of the reporting client, is inactive with the reported
    termination time, and is untouched when it is a row of another
    client; every other instance is untouched. *)
Theorem switch_report_outcome :
  let d' := (switch_report no_faults client_id agent_id data d).2 in
  let o := o_instance_id (old_inst data) in
  let n := n_instance_id (new_inst data) in
  (exists r',
     instances d' !! n = Some r' /\
     i_is_active r' = true /\
     i_current_mode r' = Some (n_mode (new_inst data)) /\
     i_current_pool_id r' = n_pool_id (new_inst data) /\
     i_spot_price r' = Some (default 0 (new_spot (prices data))) /\
     i_last_switch_at r' = Some (traffic_switched_at (timing data))) /\
  (o <> n ->
   forall r, instances d !! o = Some r ->
     instances d' !! o
     = Some (if bool_decide (i_client_id r = client_id)
             then terminate (old_instance_terminated_at (timing data)) r
             else r)) /\
  (forall k, k <> o -> k <> n -> instances d' !! k = instances d !! k).
Proof.
  cbv zeta. rewrite switch_report_instances. split; [|split].
  - destruct (upsert_lookup client_id agent_id data
                (deactivate_old_rows client_id data (instances d)))
      as (r' & Hr' & Hfix & _).
    exists r'. split; [assumption|]. rewrite <- Hfix. repeat split.
  - intros Hne r Hr. rewrite upsert_lookup_ne by assumption.
    unfold deactivate_old_rows. rewrite Hr.
    destruct (bool_decide (i_client_id r = client_id)); [|assumption].
    by rewrite lookup_insert_eq.
  - intros k Hko Hkn. rewrite upsert_lookup_ne by assumption.
    unfold deactivate_old_rows.
    destruct (instances d !! o_instance_id (old_inst data)) as [r|]; [|reflexivity].
    destruct (bool_decide (i_client_id r = client_id)); [|reflexivity].
    by rewrite lookup_insert_ne.
Qed.

End ReportOutcome.

(** ** Switch ledger and the gates *)

Section ReportThenDecide.
Import Risk Store Api.

Lemma hours_since_below (utcnow ts m : Z) :
  (utcnow - ts < m * hour)%Z -> hours_since utcnow ts < inject_Z m.
Proof.
  intros H. unfold hours_since.
  apply Qlt_shift_div_r; [reflexivity|].
  rewrite <- inject_Z_mult, <- Zlt_Qlt. assumption.
Qed.

Lemma latest_nonempty (t : Z) (ts : list Z) :
  t ∈ ts -> exists m, latest ts = Some m /\ (t <= m)%Z.
Proof.
  intros Ht.
  destruct (latest ts) as [m|] eqn:E.
  - exists m. split; [reflexivity|]. apply latest_Some in E as [_ Hmax]. by apply Hmax.
  - exfalso. destruct ts as [|x rest]; [by apply elem_of_nil in Ht|].
    simpl in E. destruct (latest rest); discriminate.
Qed.

Variable client_id : Z.
Variable agent_id : string.
Variable data : switch_payload.
Variable d : db.

Lemma reported_switch_found :
  exists ts,
    select_last_switch (n_instance_id (new_inst data))
      (switch_report no_faults client_id agent_id data d).2 = Some ts /\
    (traffic_switched_at (timing data) <= ts)%Z.
Proof.
  unfold select_last_switch. rewrite switch_report_events.
  apply latest_nonempty.
  apply (list_elem_of_fmap_2' se_timestamp _ (event_row client_id agent_id data));
    [|reflexivity].
  apply list_elem_of_filter. split.
  - left. reflexivity.
  - apply elem_of_app. right. apply list_elem_of_here.
Qed.

(** A reported switch starts the dwell time of the new instance: as long
    as fewer than min_pool_duration_hours hours have passed since the
    reported switch time, every decide call for the new instance ends at
    a gate, whatever the agent, the models and the pricing are.  With
    current_mode in its instance payload the call is answered stay,
    risk_score 0.0, not allowed, and nothing is written; without it,
    building that answer raises KeyError and the call is answered 500.
    Either way no audit row is written. *)
Theorem reported_switch_blocks_new_instance (mm : ModelManager)
    (utcnow db_now caller : Z) (agent : string)
    (instance : instance_payload) (pricing : pricing_payload) :
  let d' := (switch_report no_faults client_id agent_id data d).2 in
  instance_id instance = n_instance_id (new_inst data) ->
  (forall cfg, select_config agent caller d' = Some cfg ->
     (utcnow - traffic_switched_at (timing data) < min_pool_duration_hours cfg * hour)%Z) ->
  exists why,
    gate_reason why = true /\
    get_decision mm no_faults utcnow db_now caller agent instance pricing d'
      = match current_mode instance with
        | Some mode => (Json (stay_put instance mode why), d')
        | None => (Error500 KeyError, (log_system_event "decision_error" "error" d').2)
        end.
Proof.
  intros d' Hinst Hwindow.
  assert (Hgate : exists why,
    gate_reason why = true /\
    get_decision mm no_faults utcnow db_now caller agent instance pricing d'
      = gate_answer instance why d').
  { destruct (select_config agent caller d') as [cfg|] eqn:Hcfg.
    2: { eexists. split; [|by apply get_decision_no_config]. reflexivity. }
    destruct (enabled cfg) eqn:Hen.
    2: { eexists. split; [|by eapply get_decision_disabled]. reflexivity. }
    destruct (rate_gate (count_recent_switches agent db_now d') cfg) eqn:R.
    { eexists. split; [|by eapply get_decision_rate_limited]. reflexivity. }
    destruct reported_switch_found as (ts & Hts & Hle).
    assert (W : is_Some (dwell_gate utcnow
                           (select_last_switch (instance_id instance) d') cfg)).
    { apply dwell_gate_blocks. exists ts. split.
      - rewrite Hinst. exact Hts.
      - apply hours_since_below. specialize (Hwindow cfg eq_refl). lia. }
    destruct W as [hours W].
    eexists. split; [|by eapply get_decision_dwell_limited]. reflexivity. }
  destruct Hgate as (why & Hwhy & Hrun).
  exists why. split; [exact Hwhy|].
  rewrite Hrun. apply gate_answer_cases.
Qed.

(** A reported switch counts against the weekly limit of the reporting
    agent, and only of that agent: the count of an agent's switch events
    in the trailing 7 days grows by one when the agent is the reporting
    one and the reported switch time is within the 7 days, and is
    unchanged otherwise. *)
Theorem reported_switch_counts (agent : string) (now : Z) :
  count_recent_switches agent now (switch_report no_faults client_id agent_id data d).2
  = (count_recent_switches agent now d
     + if bool_decide (agent_id = agent /\
                       (now - seven_days <= traffic_switched_at (timing data))%Z)
       then 1 else 0)%Z.
Proof.
  unfold count_recent_switches. rewrite switch_report_events, filter_app, length_app.
  rewrite Nat2Z.inj_add. f_equal.
  rewrite filter_cons, filter_nil.
  destruct (decide (in_trailing_week agent now (event_row client_id agent_id data)))
    as [Hin | Hout].
  - rewrite bool_decide_eq_true_2; [reflexivity | exact Hin].
  - rewrite bool_decide_eq_false_2; [reflexivity | exact Hout].
Qed.

End ReportThenDecide.

Section ReportThenDecideExamples.
Import Risk Store Api.

Lemma reported_switch_blocks_new_instance_witness :
  exists why,
    gate_reason why = true /\
    get_decision models no_faults (sec 1003600) (sec 1003600) 1 "agent-1" (on_spot "i-new")
      snapshot_ab after_one_switch
      = (Json (stay_put (on_spot "i-new") "spot" why), after_one_switch).
Proof.
  apply (reported_switch_blocks_new_instance 1 "agent-1"
           (move "i-old" "i-new" (sec 1000000)) base_db
           models (sec 1003600) (sec 1003600) 1 "agent-1" (on_spot "i-new") snapshot_ab).
  - reflexivity.
  - intros cfg Hcfg. vm_compute in Hcfg. injection Hcfg as <-. reflexivity.
Defined.

End ReportThenDecideExamples.

(** ** Command queue: enqueue, list, acknowledge *)

Section Queue.
Import Store Api Console.

#[local] Instance created_before_trans : Transitive created_before.
Proof. intros a b c. unfold created_before. lia. Qed.

#[local] Instance created_before_total : Total created_before.
Proof. intros a b. unfold created_before. lia. Qed.

(** The rows of the listing are the unexecuted commands of the agent. *)
Lemma elem_of_select_pending (agent_id : string) (d : db) (row : Z * pending_command) :
  row ∈ select_pending agent_id d <->
  pending_switch_commands d !! row.1 = Some row.2 /\
  pc_agent_id row.2 = agent_id /\ pc_executed_at row.2 = None.
Proof.
  unfold select_pending. rewrite merge_sort_Permutation, list_elem_of_filter.
  destruct row as [id c]. rewrite elem_of_map_to_list. unfold is_pending_for. simpl.
  tauto.
Qed.

Lemma elem_of_listing (agent_id : string) (d : db) (v : pending_view) :
  v ∈ view_of <$> select_pending agent_id d <->
  exists id c,
    pending_switch_commands d !! id = Some c /\
    pc_agent_id c = agent_id /\ pc_executed_at c = None /\
    v = view_of (id, c).
Proof.
  rewrite list_elem_of_fmap. split.
  - intros ([id c] & -> & Hrow). apply elem_of_select_pending in Hrow.
    exists id, c. simpl in Hrow. tauto.
  - intros (id & c & Hc & Ha & He & ->). exists (id, c). split; [reflexivity|].
    apply elem_of_select_pending. auto.
Qed.

(** The listing of an agent's pending commands answers, without writing,
    with exactly the commands of that agent whose executed_at is null,
    each once, oldest first. *)
Theorem pending_commands_listing (agent_id : string) (d : db) :
  exists views,
    get_pending_commands no_faults agent_id d = (Http200 views, d) /\
    StronglySorted (fun a b => (pv_created_at a <= pv_created_at b)%Z) views /\
    NoDup (pv_id <$> views) /\
    (forall v, v ∈ views <->
       exists id c,
         pending_switch_commands d !! id = Some c /\
         pc_agent_id c = agent_id /\ pc_executed_at c = None /\
         v = view_of (id, c)).
Proof.
  exists (view_of <$> select_pending agent_id d).
  split; [reflexivity|]. split; [|split].
  - apply (StronglySorted_fmap view_of created_before).
    + intros a b H. exact H.
    + apply StronglySorted_merge_sort; apply _.
  - rewrite <- list_fmap_compose.
    assert (Heq : (pv_id ∘ view_of <$> select_pending agent_id d)
                  = (select_pending agent_id d).*1) by reflexivity.
    rewrite Heq. unfold select_pending. rewrite merge_sort_Permutation.
    apply (sublist_NoDup _ ((map_to_list (pending_switch_commands d)).*1));
      [apply NoDup_fst_map_to_list | apply fmap_sublist, sublist_filter].
  - apply elem_of_listing.
Qed.

(** Acknowledging and the listing.  After agent [acker] has acknowledged
    command [id], the listing of an agent holds what it held before
    except that command, when it is a command of the acknowledging
    agent: the command leaves the listing of its own agent, and no
    acknowledgment of another agent, or of an unknown id, changes any
    listing. *)
Theorem acknowledged_command_leaves_listing (now id : Z) (acker agent_id : string)
    (d : db) (v : pending_view) :
  v ∈ view_of <$> select_pending agent_id
                    (mark_command_executed no_faults now acker id d).2
  <->
  v ∈ view_of <$> select_pending agent_id d /\ ~ (acker = agent_id /\ pv_id v = id).
Proof.
  rewrite !elem_of_listing.
  change (pending_switch_commands (mark_command_executed no_faults now acker id d).2)
    with (set_executed_rows now id acker (pending_switch_commands d)).
  unfold set_executed_rows.
  destruct (pending_switch_commands d !! id) as [c0|] eqn:E0.
  - destruct (bool_decide (pc_agent_id c0 = acker)) eqn:Ha.
    + apply bool_decide_eq_true in Ha. split.
      * intros (k & c & Hc & Hag & Hex & ->).
        destruct (decide (id = k)) as [<- | Hne].
        -- rewrite lookup_insert_eq in Hc. injection Hc as <-. discriminate Hex.
        -- rewrite lookup_insert_ne in Hc by assumption.
           split; [eauto 10|]. simpl. intros [_ Hk]. congruence.
      * intros [(k & c & Hc & Hag & Hex & ->) Hnot].
        exists k, c. split; [|auto].
        rewrite lookup_insert_ne; [assumption|].
        intros <-. rewrite E0 in Hc. injection Hc as <-.
        apply Hnot. simpl. split; congruence.
    + apply bool_decide_eq_false in Ha. split.
      * intros H. split; [assumption|].
        destruct H as (k & c & Hc & Hag & Hex & ->). simpl.
        intros [Hacker <-]. rewrite E0 in Hc. injection Hc as <-. congruence.
      * tauto.
  - split.
    + intros H. split; [assumption|].
      destruct H as (k & c & Hc & Hag & Hex & ->). simpl.
      intros [_ <-]. congruence.
    + tauto.
Qed.

(** Acknowledging an unknown command id, or a command of another agent,
    answers success and changes nothing. *)
Theorem foreign_acknowledgment_is_noop (now id : Z) (agent_id : string) (d : db) :
  pending_switch_commands d !! id = None \/
  (exists c, pending_switch_commands d !! id = Some c /\ pc_agent_id c <> agent_id) ->
  mark_command_executed no_faults now agent_id id d = (Json tt, d).
Proof.
  intros Hmiss.
  unfold mark_command_executed, execute_query, set_executed, set_pending. simpl.
  rewrite (set_executed_rows_miss now id agent_id _ Hmiss).
  destruct d; reflexivity.
Qed.

Lemma load_target_rejects (v : json_value) :
  load_target v = None <->
  v = Missing \/ v = Null \/ v = NotText \/
  (exists t, v = Text t /\ t <> "ondemand" /\ t <> "pool").
Proof.
  destruct v as [| | |t]; simpl; try (split; [auto | reflexivity]).
  destruct (bool_decide (t = "ondemand" \/ t = "pool")) eqn:Hone.
  - apply bool_decide_eq_true in Hone. split; [discriminate|].
    intros [? | [? | [? | (t' & [= <-] & H1 & H2)]]]; try discriminate. tauto.
  - apply bool_decide_eq_false in Hone. split; [|reflexivity].
    intros _. right. right. right. exists t. split; [reflexivity | tauto].
Qed.

Lemma load_pool_id_rejects (v : json_value) :
  load_pool_id v = None <->
  v = Null \/ v = NotText \/ (exists p, v = Text p /\ (128 < len p)%nat).
Proof.
  destruct v as [| | |p]; simpl; try (split; [auto | reflexivity]).
  - split; [discriminate|].
    intros [? | [? | (p & ? & _)]]; discriminate.
  - destruct (bool_decide (len p <= 128)%nat) eqn:Hlen.
    + apply bool_decide_eq_true in Hlen. split; [discriminate|].
      intros [? | [? | (p' & [= <-] & H)]]; try discriminate. lia.
    + apply bool_decide_eq_false in Hlen. split; [|reflexivity].
      intros _. right. right. exists p. split; [reflexivity | lia].
Qed.

Lemma schema_load_rejects (data : force_switch_payload) :
  force_switch_schema_load data = None <->
  match data with
  | NotAnObject => True
  | Object target pool other_keys =>
      other_keys = true \/ load_target target = None \/ load_pool_id pool = None
  end.
Proof.
  destruct data as [|target pool other_keys]; simpl; [tauto|].
  destruct (load_target target), (load_pool_id pool), other_keys;
    split; intros H; try reflexivity; try discriminate H; auto.
  destruct H as [H | [H | H]]; discriminate H.
Qed.

Lemma valid_force_switch_not_400 (f : faults) (now command_id : Z) (iid : string)
    (data : force_switch_payload) (d : db) (v : force_switch_data) :
  force_switch_schema_load data = Some v ->
  (force_instance_switch f now command_id iid data d).1 <> Http400.
Proof.
  intros Hv. unfold force_instance_switch. rewrite Hv.
  unfold force_instance_switch_try, mbind, io_bind, execute_query, mret, io_ret,
    log_system_event.
  destruct (f 0%nat); simpl; [discriminate|].
  destruct (instances d !! iid) as [r|]; simpl; [|discriminate].
  destruct (bool_decide (i_agent_id r = "")); simpl; [discriminate|].
  destruct (f 1%nat); simpl; discriminate.
Qed.

(** A force-switch request is answered 400 exactly when its body is
    not a JSON object, has a key other than target and pool_id, has no
    target or one that is null, not a string, or a string other than
    'ondemand' and 'pool', or has a pool_id that is null, not a string,
    or a string of more than 128 characters (code points, not bytes);
    the rejection comes before any statement, so nothing is read,
    written or logged, whichever statements would fail.  A body with
    target 'pool' and no pool_id is not rejected. *)
Theorem force_switch_validation (f : faults) (now command_id : Z) (iid : string)
    (data : force_switch_payload) (d : db) :
  let run := force_instance_switch f now command_id iid data d in
  (run.1 = Http400 <->
   match data with
   | NotAnObject => True
   | Object target pool other_keys =>
       other_keys = true \/
       (target = Missing \/ target = Null \/ target = NotText \/
        exists t, target = Text t /\ t <> "ondemand" /\ t <> "pool") \/
       (pool = Null \/ pool = NotText \/
        exists p, pool = Text p /\ (128 < len p)%nat)
   end) /\
  (run.1 = Http400 -> run.2 = d).
Proof.
  cbv zeta.
  assert (Hrejects : force_switch_schema_load data = None <->
            match data with
            | NotAnObject => True
            | Object target pool other_keys =>
                other_keys = true \/
                (target = Missing \/ target = Null \/ target = NotText \/
                 exists t, target = Text t /\ t <> "ondemand" /\ t <> "pool") \/
                (pool = Null \/ pool = NotText \/
                 exists p, pool = Text p /\ (128 < len p)%nat)
            end).
  { rewrite schema_load_rejects. destruct data as [|target pool other_keys]; [tauto|].
    rewrite load_target_rejects, load_pool_id_rejects. tauto. }
  rewrite <- Hrejects.
  destruct (force_switch_schema_load data) as [v|] eqn:Hv.
  - pose proof (valid_force_switch_not_400 f now command_id iid data d v Hv) as Hnot.
    split; [split|]; intros H; try discriminate H; contradiction.
  - unfold force_instance_switch. rewrite Hv. simpl.
    split; [split; intros _; reflexivity | intros _; reflexivity].
Qed.

(** A force-switch request never touches the policies, the instances,
    the clients, the switch ledger or the audit rows, and changes the
    command queue only when it answers 200: then the instance has a row
    with an agent, and the queue has gained, under the new id, the
    command for that agent with the validated target, the pool id only
    for target 'pool', the time of the request and no executed_at.  A
    400, 404 or 500 answer leaves the queue as it was. *)
Theorem force_switch_enqueues_on_success_only (f : faults) (now command_id : Z)
    (iid : string) (data : force_switch_payload) (d : db) :
  let run := force_instance_switch f now command_id iid data d in
  agent_configs run.2 = agent_configs d /\
  instances run.2 = instances d /\
  clients run.2 = clients d /\
  switch_events run.2 = switch_events d /\
  risk_scores run.2 = risk_scores d /\
  (run.1 = Http200 tt ->
   exists v r,
     force_switch_schema_load data = Some v /\
     instances d !! iid = Some r /\
     i_agent_id r <> "" /\
     pending_switch_commands run.2
     = <[command_id := {| pc_agent_id := i_agent_id r;
                          pc_instance_id := iid;
                          pc_target_mode := v_target v;
                          pc_target_pool_id :=
                            if bool_decide (v_target v = "pool") then v_pool_id v else None;
                          pc_created_at := now;
                          pc_executed_at := None |}]> (pending_switch_commands d)) /\
  (run.1 <> Http200 tt -> pending_switch_commands run.2 = pending_switch_commands d).
Proof.
  cbv zeta. unfold force_instance_switch.
  destruct (force_switch_schema_load data) as [v|] eqn:Hv; simpl.
  2: { repeat split; try reflexivity. discriminate. }
  unfold force_instance_switch_try, mbind, io_bind, execute_query, mret, io_ret,
    log_system_event.
  destruct (f 0%nat); simpl.
  { repeat split; try reflexivity. discriminate. }
  destruct (instances d !! iid) as [r|] eqn:Hr; simpl.
  2: { repeat split; try reflexivity. discriminate. }
  destruct (bool_decide (i_agent_id r = "")) eqn:Ha; simpl.
  { repeat split; try reflexivity. discriminate. }
  apply bool_decide_eq_false in Ha.
  destruct (f 1%nat); simpl.
  { repeat split; try reflexivity. discriminate. }
  repeat split; try reflexivity.
  - intros _. exists v, r. auto.
  - intros H. contradiction.
Qed.

(** Enqueue and list.  A valid force-switch request for an instance that
    has an agent, none of whose statements fails, answers 200, and
    afterwards the listing of every agent holds what it held before,
    and the listing of the instance's agent holds the new command as
    well: overrides that were pending stay pending beside it, also those
    for the same instance. *)
Theorem forced_switch_is_listed (now command_id : Z) (iid : string)
    (data : force_switch_payload) (d : db) (v : force_switch_data) (r : instance_row) :
  force_switch_schema_load data = Some v ->
  instances d !! iid = Some r ->
  i_agent_id r <> "" ->
  pending_switch_commands d !! command_id = None ->
  exists d',
    force_instance_switch no_faults now command_id iid data d = (Http200 tt, d') /\
    forall agent_id w,
      w ∈ view_of <$> select_pending agent_id d' <->
      w ∈ view_of <$> select_pending agent_id d \/
      (agent_id = i_agent_id r /\
       w = {| pv_id := command_id;
              pv_instance_id := iid;
              pv_target_mode := v_target v;
              pv_target_pool_id :=
                if bool_decide (v_target v = "pool") then v_pool_id v else None;
              pv_created_at := now |}).
Proof.
  intros Hv Hr Ha Hfresh.
  unfold force_instance_switch. rewrite Hv.
  unfold force_instance_switch_try, mbind, io_bind, execute_query, mret, io_ret,
    log_system_event.
  simpl. rewrite Hr. simpl.
  rewrite bool_decide_eq_false_2 by assumption. simpl.
  eexists. split; [reflexivity|].
  intros agent_id w. rewrite !elem_of_listing. simpl. split.
  - intros (k & c & Hc & Hag & Hex & ->).
    destruct (decide (command_id = k)) as [<- | Hne].
    + rewrite lookup_insert_eq in Hc. injection Hc as <-. right.
      split; [symmetry; exact Hag | reflexivity].
    + rewrite lookup_insert_ne in Hc by assumption. left. eauto 10.
  - intros [(k & c & Hc & Hag & Hex & ->) | [-> ->]].
    + exists k, c. split; [|auto].
      rewrite lookup_insert_ne; [assumption|]. intros <-. congruence.
    + eexists command_id, _. rewrite lookup_insert_eq.
      split; [reflexivity|]. repeat split.
Qed.

End Queue.

Section QueueExamples.
Import Store Api Console.

Lemma foreign_acknowledgment_is_noop_witness :
  mark_command_executed no_faults 3000 "agent-2" 7 queue_db = (Json tt, queue_db).
Proof.
  apply (foreign_acknowledgment_is_noop 3000 7 "agent-2" queue_db).
  right. exists executed_command. split; [reflexivity | discriminate].
Defined.

Lemma forced_switch_is_listed_witness :
  exists d',
    force_instance_switch no_faults (sec 1100000) 1 "i-new" switch_to_ondemand
      after_one_switch = (Http200 tt, d') /\
    forall agent_id w,
      w ∈ view_of <$> select_pending agent_id d' <->
      w ∈ view_of <$> select_pending agent_id after_one_switch \/
      (agent_id = "agent-1" /\
       w = {| pv_id := 1; pv_instance_id := "i-new"; pv_target_mode := "ondemand";
              pv_target_pool_id := None; pv_created_at := sec 1100000 |}).
Proof.
  apply (forced_switch_is_listed (sec 1100000) 1 "i-new" switch_to_ondemand
           after_one_switch
           {| v_target := "ondemand"; v_pool_id := Some "pool-b" |}
           (fresh_row 1 "agent-1" (move "i-old" "i-new" (sec 1000000)))).
  - reflexivity.
  - reflexivity.
  - discriminate.
  - reflexivity.
Defined.

(** Two overrides for one instance, then the acknowledgment of the
    first: the listing holds both, oldest first, then only the second. *)
Example overlapping_overrides :
  let d1 := (force_instance_switch no_faults (sec 1100000) 1 "i-new" switch_to_ondemand
               after_one_switch).2 in
  let d2 := (force_instance_switch no_faults (sec 1100060) 2 "i-new" switch_to_pool d1).2 in
  let d3 := (mark_command_executed no_faults (sec 1100120) "agent-1" 1 d2).2 in
  (pv_id <$> (view_of <$> select_pending "agent-1" d2)) = [1%Z; 2%Z] /\
  (pv_target_pool_id <$> (view_of <$> select_pending "agent-1" d2)) = [None; Some "pool-b"] /\
  (pv_id <$> (view_of <$> select_pending "agent-1" d3)) = [2%Z].
Proof. repeat split. Qed.

(** An unknown instance, and a failing insert. *)
Example force_switch_failures :
  force_instance_switch no_faults (sec 1100000) 1 "i-none" switch_to_pool after_one_switch
    = (Http404, after_one_switch) /\
  (force_instance_switch (fault_at 1) (sec 1100000) 1 "i-new" switch_to_pool
     after_one_switch).1 = Http500 /\
  force_instance_switch no_faults (sec 1100000) 1 "i-new"
    (Object (Text "spot") Missing false) after_one_switch
    = (Http400, after_one_switch).
Proof. repeat split. Qed.

(** The length of a pool_id is counted in characters: 65 accented
    letters, 130 bytes, are accepted; 129 letters are not.  A null
    pool_id, an unknown key and a body that is no object are rejected;
    target 'pool' without pool_id is accepted. *)
Example force_switch_schema_load_cases :
  String.length accented_pool_id = 130%nat /\
  len accented_pool_id = 65%nat /\
  force_switch_schema_load (Object (Text "pool") (Text accented_pool_id) false)
    = Some {| v_target := "pool"; v_pool_id := Some accented_pool_id |} /\
  force_switch_schema_load (Object (Text "pool") (Text long_pool_id) false) = None /\
  force_switch_schema_load (Object (Text "pool") Null false) = None /\
  force_switch_schema_load (Object (Text "pool") (Text "pool-b") true) = None /\
  force_switch_schema_load NotAnObject = None /\
  force_switch_schema_load (Object (Text "pool") Missing false)
    = Some {| v_target := "pool"; v_pool_id := None |}.
Proof. repeat split. Qed.

End QueueExamples.

(** ** Agent switches: enabled and auto_switch_enabled *)

Section AgentSettings.
Import Risk Store Api Console.

Lemma select_config_toggle (b : bool) (agent agent' : string) (client : Z) (d : db) :
  select_config agent' client (set_agent_configs (alter (with_enabled b) agent) d)
  = if decide (agent = agent')
    then with_enabled b <$> select_config agent' client d
    else select_config agent' client d.
Proof.
  unfold select_config, set_agent_configs. simpl. rewrite lookup_alter.
  destruct (decide (agent = agent')) as [<- | Hne]; [|reflexivity].
  destruct (agent_configs d !! agent) as [c|]; simpl; [|reflexivity].
  destruct (bool_decide (ac_client_id c = client)); reflexivity.
Qed.

(** Disabling an agent.  After [toggle_agent] with enabled = false has
    succeeded, every decide call for that agent ends at the first gate,
    whatever the caller, the instance, the models and the pricing are:
    with current_mode in its instance payload it is answered stay, not
    allowed, 'Agent disabled' and writes nothing; without it, building
    that answer raises KeyError and the call is answered 500, with a
    decision_error row in the log.  The policy of every other agent is
    as before; and enabling the agent again restores the policy table
    when the agent was enabled before. *)
Theorem disabled_agent_always_stays (agent : string) (d : db) :
  let d1 := (toggle_agent no_faults agent (Some false) d).2 in
  (forall mm utcnow db_now client instance pricing,
     get_decision mm no_faults utcnow db_now client agent instance pricing d1
     = match current_mode instance with
       | Some mode => (Json (stay_put instance mode AgentDisabled), d1)
       | None => (Error500 KeyError, (log_system_event "decision_error" "error" d1).2)
       end) /\
  (forall agent' client, agent' <> agent ->
     select_config agent' client d1 = select_config agent' client d) /\
  (forall cfg, agent_configs d !! agent = Some cfg -> enabled cfg = true ->
     agent_configs (toggle_agent no_faults agent (Some true) d1).2 = agent_configs d).
Proof.
  cbv zeta. split; [|split].
  - intros mm utcnow db_now client instance pricing.
    set (d1 := (toggle_agent no_faults agent (Some false) d).2).
    assert (Hcfg : select_config agent client d1
                   = with_enabled false <$> select_config agent client d).
    { unfold d1, toggle_agent, execute_query, log_system_event. simpl.
      change (select_config agent client
                (set_system_events _ (set_agent_configs (alter (with_enabled false) agent) d)))
        with (select_config agent client
                (set_agent_configs (alter (with_enabled false) agent) d)).
      rewrite select_config_toggle. by rewrite decide_True. }
    rewrite <- gate_answer_cases.
    destruct (select_config agent client d) as [c|]; simpl in Hcfg.
    + by eapply get_decision_disabled.
    + by apply get_decision_no_config.
  - intros agent' client Hne.
    unfold toggle_agent, execute_query, log_system_event. simpl.
    change (select_config agent' client
              (set_system_events _ (set_agent_configs (alter (with_enabled false) agent) d)))
      with (select_config agent' client
              (set_agent_configs (alter (with_enabled false) agent) d)).
    rewrite select_config_toggle. by rewrite decide_False.
  - intros cfg Hcfg Hen.
    unfold toggle_agent, execute_query, log_system_event. simpl.
    apply map_eq. intros k. rewrite !lookup_alter.
    destruct (decide (agent = k)) as [<- | Hne]; [|reflexivity].
    rewrite Hcfg. simpl. rewrite decide_True by reflexivity. simpl.
    f_equal. destruct cfg; simpl in *. by subst.
Qed.

(** A body without the key 'enabled' is answered 500 before any
    statement; an unknown agent id is answered 200 and no policy row is
    created. *)
Example toggle_agent_edges :
  toggle_agent no_faults "agent-1" None base_db = (Http500, base_db) /\
  agent_configs (toggle_agent no_faults "agent-9" (Some false) base_db).2
    = agent_configs base_db /\
  (toggle_agent no_faults "agent-9" (Some false) base_db).1 = Http200 tt.
Proof. repeat split. Qed.

End AgentSettings.

Section AutoSwitch.
Import Risk Store Api Console.

Variable b : bool.
Variable auto_terminate : option bool.
Variable agent : string.
Variable d : db.

Let d1 : db := (update_agent_settings no_faults agent (Some b) auto_terminate d).2.

Lemma select_config_auto_switch (client : Z) :
  select_config agent client d1 = with_auto_switch b <$> select_config agent client d.
Proof.
  unfold d1, update_agent_settings, execute_query, log_system_event, select_config.
  simpl. rewrite lookup_alter, decide_True by reflexivity.
  destruct (agent_configs d !! agent) as [c|]; simpl; [|reflexivity].
  destruct (bool_decide (ac_client_id c = client)); reflexivity.
Qed.

(** The allowed flag is orthogonal to the action.  When a decide call is
    evaluated and answered, the same call after [update_agent_settings]
    has set auto_switch_enabled to [b] is answered with the same score,
    action, mode, pool, expected savings and reason, and with allowed
    equal to [b]. *)
Theorem auto_switch_changes_only_allowed (mm : ModelManager) (utcnow db_now client : Z)
    (instance : instance_payload) (pricing : pricing_payload)
    (body : decision) (dd : db) :
  get_decision mm no_faults utcnow db_now client agent instance pricing d = (Json body, dd) ->
  gate_reason (d_reason body) = false ->
  exists dd1,
    get_decision mm no_faults utcnow db_now client agent instance pricing d1
    = (Json (with_allowed b body), dd1).
Proof.
  intros Hrun Hreason.
  destruct (select_config agent client d) as [cfg|] eqn:Hcfg.
  2: { rewrite get_decision_no_config in Hrun by assumption.
       apply gate_answer_Json in Hrun as [Hwhy _].
       rewrite Hwhy in Hreason. discriminate Hreason. }
  destruct (enabled cfg) eqn:Hen.
  2: { rewrite (get_decision_disabled _ _ _ _ _ _ _ _ cfg Hcfg Hen) in Hrun.
       apply gate_answer_Json in Hrun as [Hwhy _].
       rewrite Hwhy in Hreason. discriminate Hreason. }
  destruct (rate_gate (count_recent_switches agent db_now d) cfg) eqn:R.
  { rewrite (get_decision_rate_limited _ _ _ _ _ _ _ _ cfg Hcfg Hen R) in Hrun.
    apply gate_answer_Json in Hrun as [Hwhy _].
    rewrite Hwhy in Hreason. discriminate Hreason. }
  destruct (dwell_gate utcnow (select_last_switch (instance_id instance) d) cfg)
    as [hours|] eqn:W.
  { rewrite (get_decision_dwell_limited _ _ _ _ _ _ _ _ cfg hours Hcfg Hen R W) in Hrun.
    apply gate_answer_Json in Hrun as [Hwhy _].
    rewrite Hwhy in Hreason. discriminate Hreason. }
  rewrite (get_decision_evaluating _ _ _ _ _ _ _ _ cfg (conj Hcfg (conj Hen (conj R W))))
    in Hrun.
  destruct (evaluate mm cfg instance pricing) as [ev|e] eqn:Hev; [|discriminate Hrun].
  injection Hrun as <- _.
  assert (Hreach : reaches_evaluating utcnow db_now client agent instance d1
                     (with_auto_switch b cfg)).
  { split; [|split; [|split]].
    - rewrite select_config_auto_switch, Hcfg. reflexivity.
    - exact Hen.
    - exact R.
    - exact W. }
  rewrite (get_decision_evaluating mm utcnow db_now client agent instance pricing d1
             (with_auto_switch b cfg) Hreach).
  change (evaluate mm (with_auto_switch b cfg) instance pricing)
    with (evaluate mm cfg instance pricing).
  rewrite Hev. eexists. reflexivity.
Qed.

End AutoSwitch.

Section AutoSwitchExamples.
Import Risk Store Api Console.

Lemma auto_switch_changes_only_allowed_witness :
  exists dd1,
    get_decision models no_faults (sec 1000000) (sec 1000000) 1 "agent-1" (on_spot "i-1")
      snapshot_ab (update_agent_settings no_faults "agent-1" (Some false) None base_db).2
    = (Json (with_allowed false
               (decided (on_spot "i-1") policy
                  {| ev_risk_score := 3 # 10; ev_action := SwitchPool; ev_mode := "spot";
                     ev_pool_id := "pool-b"; ev_expected_savings := (5 # 10) - (3 # 10);
                     ev_reason := BetterPool "pool-b" (((5 # 10) - (3 # 10)) / 1 * 100) |})),
       dd1).
Proof.
  eapply (auto_switch_changes_only_allowed false None "agent-1" base_db models
            (sec 1000000) (sec 1000000) 1 (on_spot "i-1") snapshot_ab).
  - reflexivity.
  - reflexivity.
Defined.

(** A body with neither key runs no statement, also when the database
    would fail. *)
Example update_agent_settings_empty :
  update_agent_settings (fault_at 0) "agent-1" None None base_db = (Http200 tt, base_db).
Proof. reflexivity. Qed.

End AutoSwitchExamples.

(** ** Switch history *)

Section History.
Import Store Api Console.

#[local] Instance later_trans : Transitive later.
Proof. intros a b c. unfold later. lia. Qed.

#[local] Instance later_total : Total later.
Proof. intros a b. unfold later. lia. Qed.

Lemma StronglySorted_take {A : Type} (R : relation A) (l : list A) (n : nat) :
  StronglySorted R l -> StronglySorted R (take n l).
Proof.
  intros H. revert n. induction H as [|a l Hl IH Hall]; intros n.
  - rewrite take_nil. constructor.
  - destruct n as [|n]; simpl; constructor.
    + apply IH.
    + by apply Forall_take.
Qed.

Lemma elem_of_numbered (l : list switch_event) (row : nat * switch_event) :
  row ∈ numbered l <-> exists k, l !! k = Some row.2 /\ row.1 = S k.
Proof.
  unfold numbered. rewrite elem_of_lookup_imap. split.
  - intros (k & e & -> & Hk). exists k. auto.
  - intros (k & Hk & Hid). exists k, row.2. split; [|assumption].
    destruct row as [i e]. simpl in *. by subst.
Qed.

Variable client_id : Z.
Variable instance_id : option string.
Variable d : db.

Lemma filter_length_le {A : Type} (P : A -> Prop) `{forall x, Decision (P x)} (l : list A) :
  (length (filter P l) <= length l)%nat.
Proof. apply sublist_length, sublist_filter. Qed.

Lemma history_lists_all :
  (length (filter (in_history client_id instance_id) (numbered (switch_events d)))
   <= 100)%nat ->
  forall k e,
    switch_events d !! k = Some e ->
    in_history client_id instance_id (S k, e) ->
    history_of (S k, e) ∈ history_of <$> select_history client_id instance_id d.
Proof.
  intros Hfew k e Hk Hin. apply list_elem_of_fmap_2. unfold select_history.
  rewrite take_ge.
  - rewrite merge_sort_Permutation. apply list_elem_of_filter. split; [assumption|].
    apply elem_of_numbered. exists k. auto.
  - rewrite merge_sort_Permutation. exact Hfew.
Qed.

(** The switch history answers, without writing, with at most 100 rows,
    latest first, each of them an event of the ledger that belongs to
    the client and, when a non-empty instance id is given, has that
    instance as old or as new instance; and when at most 100 events
    qualify, every one of them is listed. *)
Theorem switch_history_listing :
  exists rows,
    get_switch_history no_faults client_id instance_id d = (Http200 rows, d) /\
    (length rows <= 100)%nat /\
    StronglySorted (fun a b => (hv_timestamp b <= hv_timestamp a)%Z) rows /\
    (forall h, h ∈ rows ->
       exists k e,
         switch_events d !! k = Some e /\
         h = history_of (S k, e) /\
         in_history client_id instance_id (S k, e)) /\
    ((length (filter (in_history client_id instance_id) (numbered (switch_events d)))
      <= 100)%nat ->
     forall k e,
       switch_events d !! k = Some e ->
       in_history client_id instance_id (S k, e) ->
       history_of (S k, e) ∈ rows).
Proof.
  exists (history_of <$> select_history client_id instance_id d).
  split; [reflexivity|]. unfold select_history.
  split; [|split; [|split]].
  - rewrite length_fmap, length_take. lia.
  - apply (StronglySorted_fmap history_of later).
    + intros x y H. exact H.
    + apply StronglySorted_take, StronglySorted_merge_sort; apply _.
  - intros h Hh. apply list_elem_of_fmap in Hh as ([i e] & -> & Hrow).
    apply subseteq_take in Hrow.
    rewrite merge_sort_Permutation in Hrow.
    apply list_elem_of_filter in Hrow as [Hin Hrow].
    apply elem_of_numbered in Hrow as (k & Hk & Hid). simpl in Hk, Hid. subst i.
    eauto.
  - apply history_lists_all.
Qed.



End History.

Section HistoryAfterReport.
Import Store Api Console.

Variable client_id : Z.
Variable agent_id : string.
Variable data : switch_payload.
Variable d : db.

(** Report and history.  After a report none of whose statements fails,
    on a ledger of fewer than 100 events, the history of the reporting
    client lists the reported switch, unfiltered as well as under the
    id of the old instance and under the id of the new one: with the new
    instance as instance, the reported switch time and trigger, and as
    price the new spot price when one is reported and not 0, else the
    on-demand price. *)
Theorem reported_switch_in_history (filter_id : option string) :
  (length (switch_events d) < 100)%nat ->
  filter_id = None \/
  filter_id = Some (o_instance_id (old_inst data)) \/
  filter_id = Some (n_instance_id (new_inst data)) ->
  let d' := (switch_report no_faults client_id agent_id data d).2 in
  exists rows h,
    get_switch_history no_faults client_id filter_id d' = (Http200 rows, d') /\
    h ∈ rows /\
    hv_id h = S (length (switch_events d)) /\
    hv_instance_id h = n_instance_id (new_inst data) /\
    hv_timestamp h = traffic_switched_at (timing data) /\
    hv_trigger h = trigger data /\
    hv_price h = or_else (default 0 (new_spot (prices data)))
                   (or_else (on_demand (prices data)) 0).
Proof.
  intros Hlen Hfilter d'.
  exists (history_of <$> select_history client_id filter_id d'),
    (history_of (S (length (switch_events d)), event_row client_id agent_id data)).
  split; [reflexivity|]. split; [|repeat split].
  apply history_lists_all.
  - etransitivity; [apply filter_length_le|].
    unfold numbered. rewrite length_imap. unfold d'.
    rewrite switch_report_events, length_app. simpl. lia.
  - unfold d'. rewrite switch_report_events.
    rewrite lookup_app_r by lia. by rewrite Nat.sub_diag.
  - split; [reflexivity|].
    destruct Hfilter as [-> | [-> | ->]]; simpl; auto.
Qed.

End HistoryAfterReport.

Section HistoryExamples.
Import Store Api Console.

Lemma reported_switch_in_history_witness :
  exists rows h,
    get_switch_history no_faults 1 (Some "i-old") after_one_switch
      = (Http200 rows, after_one_switch) /\
    h ∈ rows /\
    hv_id h = 1%nat /\
    hv_instance_id h = "i-new" /\
    hv_timestamp h = sec 1000000 /\
    hv_trigger h = "manual" /\
    hv_price h = or_else (3 # 10) (or_else 1 0).
Proof.
  apply (reported_switch_in_history 1 "agent-1" (move "i-old" "i-new" (sec 1000000))
           base_db (Some "i-old")).
  - simpl. lia.
  - right. left. reflexivity.
Defined.

End HistoryExamples.
